(** * YITRO CRM: the authentication and metrics contract of [server/index-simple.ts]

    A shallow embedding of the five Express handlers of
    [src/server/index-simple.ts] and the properties of the authentication and
    authorization contract that hold (or fail) on them.

    The handlers are asynchronous JavaScript functions that talk to a SQLite
    database, read the wall clock and a random source, and call two external
    libraries (bcrypt and jsonwebtoken).  They are embedded as computations
    in a state-and-exception monad [Js] over a [World]:

    - the relational store is a record of row lists, one per table;
    - every call of [dbGet], [dbQuery] and [dbRun] may be rejected by the
      storage engine; which calls are rejected is read from the [faults]
      schedule of the world, a rejected statement leaves the store as it was;
    - [Date.now()] and [Math.random()] read the [clock] and [entropy]
      schedules of the world;
    - the fields of [req.body] are JSON values of any type, as
      [express.json()] hands them over; a method called on a value that does
      not have it, and a library called on a value it does not take, throw;
    - bcrypt, jsonwebtoken, [String.prototype.toLowerCase] and
      [Date.prototype.toISOString] are the fields of a [Platform], what the
      JavaScript runtime and the libraries compute; the facts a theorem may
      ask of the libraries ([jwt_faithful], [jwt_expiring],
      [bcrypt_faithful]) are stated where they are used.  The [Reference]
      platform satisfies them and runs the handlers on sample data. *)

From Stdlib Require Import ZArith List String Ascii Bool Lia.
From Stdlib Require Import DecimalString DecimalZ Sorting.Sorted Sorting.Permutation.
Import ListNotations.

Local Open Scope string_scope.
Local Open Scope Z_scope.

(* ================================================================= *)
(** ** JavaScript strings *)

(** [c] is one of [A]..[Z]. *)
Definition is_upper (c : ascii) : bool :=
  ((65 <=? nat_of_ascii c)%nat && (nat_of_ascii c <=? 90)%nat)%bool.

Definition lower_ascii (c : ascii) : ascii :=
  if is_upper c then ascii_of_nat (nat_of_ascii c + 32) else c.

(** The letters [A]..[Z] mapped to [a]..[z], every other character kept:
    what [String.prototype.toLowerCase] does to a string of ASCII
    characters, and the [toLowerCase] of the reference platform. *)
Fixpoint lower_A_to_Z (s : string) : string :=
  match s with
  | EmptyString => EmptyString
  | String c s' => String (lower_ascii c) (lower_A_to_Z s')
  end.

(** [s.startsWith(p)]. *)
Definition startsWith (s p : string) : bool := String.prefix p s.

(** [s.substring(n)]: [s] without its first [n] characters. *)
Fixpoint substring_from (n : nat) (s : string) : string :=
  match n, s with
  | O, _ => s
  | S _, EmptyString => EmptyString
  | S n', String _ s' => substring_from n' s'
  end.

Arguments substring_from : simpl never.

(** [s.substr(start, len)]. *)
Definition substr (start len : nat) (s : string) : string :=
  String.substring start len s.

(** The decimal text JavaScript concatenates for an integral number, as in
    ['sess_' + Date.now()]. *)
Definition number_toString (z : Z) : string :=
  NilZero.string_of_int (Z.to_int z).

(** JavaScript truthiness of a header or an environment variable, a string
    or [undefined]: [undefined] and the empty string are falsy. *)
Definition truthy_text (v : option string) : bool :=
  match v with
  | None => false
  | Some s => negb (s =? "")%string
  end.

(** A value of a parsed JSON body, or [undefined] for a field the body does
    not have.  A number is the bit pattern of its IEEE 754 double. *)
#[warnings="-register-all"]
Inductive JsValue : Type :=
| JUndefined
| JNull
| JBool (b : bool)
| JNumber (bits : Z)
| JString (s : string)
| JArray (items : list JsValue)
| JObject (fields : list (string * JsValue)).

(** A double is falsy when it is [0], [-0] or [NaN]: all bits but the sign
    are zero, or the exponent is all ones and the fraction is not zero. *)
Definition falsy_number (bits : Z) : bool :=
  let magnitude := bits mod 2 ^ 63 in
  ((magnitude =? 0) || (2 ^ 63 - 2 ^ 52 <? magnitude))%bool.

(** JavaScript truthiness: [undefined], [null], [false], [0], [-0], [NaN]
    and the empty string are falsy, every array and object is truthy. *)
Definition truthy (v : JsValue) : bool :=
  match v with
  | JUndefined | JNull => false
  | JBool b => b
  | JNumber bits => negb (falsy_number bits)
  | JString s => negb (s =? "")%string
  | JArray _ | JObject _ => true
  end.

(** [typeof v === 'string']. *)
Definition is_string (v : JsValue) : bool :=
  match v with
  | JString _ => true
  | _ => false
  end.

(** [{ field = d }]: the default of a destructuring applies to [undefined]
    only. *)
Definition with_default (d : string) (v : JsValue) : JsValue :=
  match v with
  | JUndefined => JString d
  | _ => v
  end.

(** Two characters are the same letter of [A]..[Z], [a]..[z] up to case,
    or the same character. *)
Definition case_variant (c1 c2 : ascii) : bool :=
  (Ascii.eqb c1 c2
   || (is_upper c1 && Ascii.eqb c2 (ascii_of_nat (nat_of_ascii c1 + 32)))
   || (is_upper c2 && Ascii.eqb c1 (ascii_of_nat (nat_of_ascii c2 + 32))))%bool.

(** Two strings differ only in the case of their letters [A]..[Z],
    [a]..[z] (or are equal). *)
Fixpoint differs_only_in_case (s1 s2 : string) : bool :=
  match s1, s2 with
  | EmptyString, EmptyString => true
  | String c1 r1, String c2 r2 => (case_variant c1 c2 && differs_only_in_case r1 r2)%bool
  | _, _ => false
  end.

(* ================================================================= *)
(** ** The relational store *)

(** A column value that may be [NULL]. *)
Definition nullable := option string.

(** SQL [col = ?]: a comparison with [NULL] on either side is not true. *)
Definition sql_eq (col param : nullable) : bool :=
  match col, param with
  | Some a, Some b => (a =? b)%string
  | _, _ => false
  end.

(** Table [auth_users]. *)
Module AuthUser.
Record t := mk {
  id : string;
  email : string;
  displayName : string;
  passwordHash : string;
  role : string;
  emailVerified : bool;
  createdAt : string;
  updatedAt : string;
  lastLogin : nullable
}.

Definition set_lastLogin (v : string) (u : t) : t :=
  mk (id u) (email u) (displayName u) (passwordHash u) (role u)
     (emailVerified u) (createdAt u) (updatedAt u) (Some v).
End AuthUser.

(** Table [auth_sessions]; the column [isActive] holds 0 or 1. *)
Module AuthSession.
Record t := mk {
  id : string;
  userId : string;
  tokenHash : string;
  expiresAt : string;
  ipAddress : string;
  userAgent : nullable;
  isActive : bool
}.

Definition set_isActive (b : bool) (s : t) : t :=
  mk (id s) (userId s) (tokenHash s) (expiresAt s) (ipAddress s)
     (userAgent s) b.
End AuthSession.

(** Table [leads], the columns the server reads. *)
Module Lead.
Record t := mk {
  firstName : string;
  lastName : string;
  status : string;
  createdAt : string;
  createdBy : nullable
}.
End Lead.

(** Table [accounts], the columns the server reads. *)
Module Account.
Record t := mk {
  accountName : string;
  status : string;
  createdAt : string;
  createdBy : nullable
}.
End Account.

(** Table [active_deals], the columns the server reads. *)
Module Deal.
Record t := mk {
  dealName : string;
  stage : string;
  createdAt : string;
  createdBy : nullable
}.
End Deal.

(** Table [contacts]: only counted, scoped by [createdBy]. *)
Module Contact.
Record t := mk {
  createdBy : nullable
}.
End Contact.

Record Store := mkStore {
  auth_users : list AuthUser.t;
  auth_sessions : list AuthSession.t;
  leads : list Lead.t;
  accounts : list Account.t;
  active_deals : list Deal.t;
  contacts : list Contact.t
}.

Definition with_users (us : list AuthUser.t) (s : Store) : Store :=
  mkStore us (auth_sessions s) (leads s) (accounts s) (active_deals s) (contacts s).

Definition with_sessions (ss : list AuthSession.t) (s : Store) : Store :=
  mkStore (auth_users s) ss (leads s) (accounts s) (active_deals s) (contacts s).

(* ================================================================= *)
(** ** The world of a request and the monad of handlers *)

Record World := mkWorld {
  db : Store;
  (** the values the next calls of [Date.now()] return, in milliseconds *)
  clock : list Z;
  (** whether the next store calls are rejected *)
  faults : list bool;
  (** what the next reads of the random source return *)
  entropy : list string;
  (** [process.env.JWT_SECRET] *)
  JWT_SECRET : option string
}.

(** How an [await]ed step ends: with a value, or with a thrown exception. *)
Inductive completion (A : Type) : Type :=
| Value (a : A)
| Thrown.
Arguments Value {A} a.
Arguments Thrown {A}.

Definition Js (A : Type) : Type := World -> completion A * World.

Definition ret {A} (a : A) : Js A := fun w => (Value a, w).

Definition bind {A B} (m : Js A) (k : A -> Js B) : Js B :=
  fun w =>
    match m w with
    | (Value a, w') => k a w'
    | (Thrown, w') => (Thrown, w')
    end.

Definition throw {A} : Js A := fun w => (Thrown, w).

Notation "x <- m ;; k" := (bind m (fun x => k))
  (at level 61, m at next level, right associativity).
Notation "m ;;; k" := (bind m (fun _ => k))
  (at level 61, right associativity).

(** [Date.now()]: the next reading of the clock (0 once the schedule is
    exhausted). *)
Definition Date_now : Js Z :=
  fun w =>
    (Value (hd 0 (clock w)),
     mkWorld (db w) (tl (clock w)) (faults w) (entropy w) (JWT_SECRET w)).

(** A read of the random source; for [Math.random().toString(36)] the text
    of the number in base 36, [0.xxxxx]. *)
Definition random_text : Js string :=
  fun w =>
    (Value (hd "" (entropy w)),
     mkWorld (db w) (clock w) (faults w) (tl (entropy w)) (JWT_SECRET w)).

(** One statement sent to the store: rejected if the schedule says so, and
    then without effect; run on the store otherwise (an exhausted schedule
    rejects nothing). *)
Definition db_call {A} (stmt : Store -> A * Store) : Js A :=
  fun w =>
    if hd false (faults w) then
      (Thrown, mkWorld (db w) (clock w) (tl (faults w)) (entropy w) (JWT_SECRET w))
    else
      (Value (fst (stmt (db w))),
       mkWorld (snd (stmt (db w))) (clock w) (tl (faults w)) (entropy w) (JWT_SECRET w)).

(** [dbGet] and [dbQuery] run a [SELECT]; [dbRun] runs a statement for its
    effect. *)
Definition dbGet {A} (q : Store -> option A) : Js (option A) :=
  db_call (fun s => (q s, s)).

Definition dbQuery {A} (q : Store -> list A) : Js (list A) :=
  db_call (fun s => (q s, s)).

Definition dbRun (stmt : Store -> Store) : Js unit :=
  db_call (fun s => (tt, stmt s)).

(** [env || 'default-secret']. *)
Definition signing_key (env : option string) : string :=
  match env with
  | Some k => if truthy_text env then k else "default-secret"
  | None => "default-secret"
  end.

(** [process.env.JWT_SECRET || 'default-secret']. *)
Definition secret : Js string :=
  fun w => (Value (signing_key (JWT_SECRET w)), w).

(** The store accepts the next [n] statements. *)
Fixpoint rejects_none (n : nat) (schedule : list bool) : bool :=
  match n with
  | O => true
  | S n' => (negb (hd false schedule) && rejects_none n' (tl schedule))%bool
  end.

Definition accepts (n : nat) (w : World) : Prop :=
  rejects_none n (faults w) = true.

(** The store accepts the next [n] statements and rejects the one after. *)
Definition rejects_after (n : nat) (w : World) : Prop :=
  rejects_none n (faults w) = true /\ nth n (faults w) false = true.

(** What the next call of [Date.now()] returns. *)
Definition next_instant (w : World) : Z := hd 0 (clock w).

(* ================================================================= *)
(** ** The external libraries *)

(** The object [tokenData] that sign-in signs. *)
Module TokenData.
Record t := mk {
  userId : string;
  email : string;
  role : string;
  timestamp : Z
}.
End TokenData.

(** What [jwt.verify] returns: the signed payload with the claims [iat] and
    [exp] jsonwebtoken added, both in seconds. *)
Module Decoded.
Record t := mk {
  payload : TokenData.t;
  iat : Z;
  exp : Z
}.
Definition userId (d : t) : string := TokenData.userId (payload d).
End Decoded.

(** The JavaScript runtime, bcrypt, jsonwebtoken and sqlite3.

    - [toLowerCase s] is [s.toLowerCase()] for a string [s], the Unicode
      lower-casing of ECMAScript; all that is known of it here is
      [toLowerCase_idempotent], that lower-casing a lower-cased string
      changes nothing;
    - [bcrypt_compare data hash] is the boolean [bcrypt.compare] resolves to
      on two strings;
    - [bcrypt_hash data rounds salt] is [bcrypt.hash] of a string for the
      salt it drew;
    - [jwt_sign payload key expiresIn now] is [jwt.sign] called at the
      instant [now] (milliseconds) with [expiresIn] seconds of validity;
    - [jwt_verify token key now] is [Some] of the decoded payload when
      [jwt.verify] returns at the instant [now], [None] when it throws
      (bad signature, malformed token, expired token);
    - [sqlite_text v] is the text by which a column is known after sqlite3
      has bound to it the value [v] that is not a string. *)
Class Platform := {
  toLowerCase : string -> string;
  bcrypt_compare : string -> string -> bool;
  bcrypt_hash : string -> Z -> string -> string;
  jwt_sign : TokenData.t -> string -> Z -> Z -> string;
  jwt_verify : string -> string -> Z -> option Decoded.t;
  toISOString : Z -> string;
  sqlite_text : JsValue -> string;
  toLowerCase_idempotent : forall s, toLowerCase (toLowerCase s) = toLowerCase s
}.

(** What a text column of [auth_users] holds after a value has been bound
    to it: a string is stored as it is. *)
Definition column_text {P : Platform} (v : JsValue) : string :=
  match v with
  | JString s => s
  | _ => sqlite_text v
  end.

(** What jsonwebtoken promises: a token is accepted under the key that
    signed it as long as the clock, in whole seconds, is before
    [iat + expiresIn]; the decoded payload is the signed one, with [iat] the
    second of signing and [exp = iat + expiresIn]. *)
Definition jwt_faithful (P : Platform) : Prop :=
  forall p k ttl t t',
    t' / 1000 < t / 1000 + ttl ->
    jwt_verify (jwt_sign p k ttl t) k t'
    = Some (Decoded.mk p (t / 1000) (t / 1000 + ttl)).

(** What jsonwebtoken promises about expiry: from the second [iat + expiresIn]
    on, a token it signed is rejected. *)
Definition jwt_expiring (P : Platform) : Prop :=
  forall p k ttl t t',
    t / 1000 + ttl <= t' / 1000 ->
    jwt_verify (jwt_sign p k ttl t) k t' = None.

(** What bcrypt promises: a hash it computed compares equal to its data. *)
Definition bcrypt_faithful (P : Platform) : Prop :=
  forall data rounds salt,
    bcrypt_compare data (bcrypt_hash data rounds salt) = true.

(** [expiresIn: '24h'], in seconds. *)
Definition expiresIn_24h : Z := 24 * 60 * 60.

(* ================================================================= *)
(** ** Requests and responses *)

Record Request := mkRequest {
  (** [req.headers.authorization] *)
  authorization : option string;
  (** the fields of [req.body] the handlers read, [JUndefined] for a field
      the body does not have ([express.json()] leaves an empty object when
      the request has no JSON body) *)
  body_email : JsValue;
  body_displayName : JsValue;
  body_password : JsValue;
  body_role : JsValue;
  (** [req.ip] and [req.get('User-Agent')] *)
  ip : string;
  user_agent : nullable
}.

(** The projection [id, email, role, displayName] of a user. *)
Module Profile.
Record t := mk {
  id : string;
  email : string;
  role : string;
  displayName : string
}.
Definition of_user (u : AuthUser.t) : t :=
  mk (AuthUser.id u) (AuthUser.email u) (AuthUser.role u) (AuthUser.displayName u).
End Profile.

(** A row of the user listing. *)
Module UserRow.
Record t := mk {
  id : string;
  email : string;
  displayName : string;
  role : string;
  emailVerified : bool;
  createdAt : string;
  lastLogin : nullable
}.
Definition of_user (u : AuthUser.t) : t :=
  mk (AuthUser.id u) (AuthUser.email u) (AuthUser.displayName u) (AuthUser.role u)
     (AuthUser.emailVerified u) (AuthUser.createdAt u) (AuthUser.lastLogin u).
End UserRow.

(** A row of the activity feed. *)
Module Activity.
Record t := mk {
  type : string;
  name : string;
  status : string;
  createdAt : string
}.
End Activity.

Module Metrics.
Record t := mk {
  leads : Z;
  accounts : Z;
  deals : Z;
  contacts : Z
}.
End Metrics.

(** The user object of the response to a creation: the new id, the
    lower-cased email, and [displayName] and [role] as the request gave them. *)
Module NewUser.
Record t := mk {
  id : string;
  email : string;
  displayName : JsValue;
  role : JsValue
}.
End NewUser.

(** What a JSON response carries besides [success] and [message]. *)
Inductive Payload : Type :=
| NoPayload
| SignedIn (user : Profile.t) (token : string)
| CurrentUser (user : Profile.t)
| Dashboard (metrics : Metrics.t) (recentActivities : list Activity.t) (userRole : string)
| CreatedUser (user : NewUser.t)
| UserList (users : list UserRow.t).

Record Response := mkResponse {
  status : Z;
  success : bool;
  message : option string;
  payload : Payload
}.

(** [res.status(code).json({ success: false, message })]. *)
Definition failure (code : Z) (msg : string) : Response :=
  mkResponse code false (Some msg) NoPayload.

(** [try { body } catch (error) { res.status(..).json(..) }]. *)
Definition try_catch (body : Js Response) (on_error : Response)
  : World -> Response * World :=
  fun w =>
    match body w with
    | (Value r, w') => (r, w')
    | (Thrown, w') => (on_error, w')
    end.

(** The receiver of a method call on a header: [undefined] there throws a
    [TypeError]. *)
Definition required (v : option string) : Js string :=
  match v with
  | Some s => ret s
  | None => throw
  end.

(* ================================================================= *)
(** ** The SQL statements *)

(** [ORDER BY key DESC], as a stable insertion sort; the keys are compared
    as text, which orders the ISO-8601 instants the server writes. *)
Section OrderBy.
Context {A : Type} (key : A -> string).

Fixpoint insert_desc (x : A) (l : list A) : list A :=
  match l with
  | [] => [x]
  | y :: l' =>
      if String.ltb (key x) (key y) then y :: insert_desc x l'
      else x :: y :: l'
  end.

Definition order_by_desc (l : list A) : list A :=
  fold_right insert_desc [] l.

(** [a] may come right before [b] in descending order. *)
Definition desc (a b : A) : Prop := String.leb (key b) (key a) = true.
End OrderBy.

(** [SELECT * FROM auth_users WHERE email = ?] through [dbGet]: the first
    such row. *)
Definition select_user_by_email (e : string) (s : Store) : option AuthUser.t :=
  find (fun u => (AuthUser.email u =? e)%string) (auth_users s).

(** [SELECT .. FROM auth_users WHERE id = ?] through [dbGet]. *)
Definition select_user_by_id (i : string) (s : Store) : option AuthUser.t :=
  find (fun u => (AuthUser.id u =? i)%string) (auth_users s).

(** [UPDATE auth_sessions SET isActive = 0 WHERE userId = ? AND isActive = 1]. *)
Definition deactivate_sessions (uid : string) (s : Store) : Store :=
  with_sessions
    (map (fun r =>
            if ((AuthSession.userId r =? uid)%string && AuthSession.isActive r)%bool
            then AuthSession.set_isActive false r else r)
         (auth_sessions s))
    s.

(** [INSERT INTO auth_sessions (..) VALUES (?, ?, ?, ?, ?, ?, 1)]. *)
Definition insert_session (sid uid token expiresAt ipAddress : string)
    (userAgent : nullable) (s : Store) : Store :=
  with_sessions
    (auth_sessions s
     ++ [AuthSession.mk sid uid token expiresAt ipAddress userAgent true])
    s.

(** [UPDATE auth_users SET lastLogin = ? WHERE id = ?]. *)
Definition update_lastLogin (at_ uid : string) (s : Store) : Store :=
  with_users
    (map (fun u =>
            if (AuthUser.id u =? uid)%string then AuthUser.set_lastLogin at_ u else u)
         (auth_users s))
    s.

(** [INSERT INTO auth_users (..) VALUES (?, ?, ?, ?, ?, 1, ?, ?)]. *)
Definition insert_user (uid email displayName passwordHash role createdAt updatedAt : string)
    (s : Store) : Store :=
  with_users
    (auth_users s
     ++ [AuthUser.mk uid email displayName passwordHash role true createdAt updatedAt None])
    s.

(** [SELECT id, email, displayName, role, emailVerified, createdAt, lastLogin
    FROM auth_users ORDER BY createdAt DESC]. *)
Definition select_all_users (s : Store) : list UserRow.t :=
  order_by_desc UserRow.createdAt (map UserRow.of_user (auth_users s)).

(** The two values of [whereClause]: [''] and [' WHERE createdBy = ?']. *)
Inductive WhereClause : Type :=
| NoWhere
| WhereCreatedBy.

(** The value bound to the [i]-th placeholder of a statement run with the
    parameter array [params]: sqlite3 binds the array positionally and leaves
    a placeholder beyond its end unbound, which SQLite reads as [NULL]. *)
Definition bound (params : list string) (i : nat) : nullable :=
  nth_error params i.

(** The rows of a table that pass [whereClause], its placeholder bound to
    [param]. *)
Definition select_where {A} (whereClause : WhereClause) (param : nullable)
    (createdBy : A -> nullable) (rows : list A) : list A :=
  match whereClause with
  | NoWhere => rows
  | WhereCreatedBy => filter (fun r => sql_eq (createdBy r) param) rows
  end.

(** [SELECT COUNT( * ) as count FROM table${whereClause}], one placeholder. *)
Definition select_count {A} (whereClause : WhereClause) (params : list string)
    (createdBy : A -> nullable) (rows : list A) : Z :=
  Z.of_nat (List.length (select_where whereClause (bound params 0) createdBy rows)).

Definition lead_activity (r : Lead.t) : Activity.t :=
  Activity.mk "lead" (Lead.firstName r ++ " " ++ Lead.lastName r)
              (Lead.status r) (Lead.createdAt r).

Definition account_activity (r : Account.t) : Activity.t :=
  Activity.mk "account" (Account.accountName r) (Account.status r) (Account.createdAt r).

Definition deal_activity (r : Deal.t) : Activity.t :=
  Activity.mk "deal" (Deal.dealName r) (Deal.stage r) (Deal.createdAt r).

(** The three-way [UNION ALL] of the activity feed, before ordering: the
    where clause occurs three times, so the statement has three placeholders
    (when it has any) for the one array [params]. *)
Definition union_all_activities (whereClause : WhereClause) (params : list string)
    (s : Store) : list Activity.t :=
  map lead_activity
      (select_where whereClause (bound params 0) Lead.createdBy (leads s))
  ++ map account_activity
      (select_where whereClause (bound params 1) Account.createdBy (accounts s))
  ++ map deal_activity
      (select_where whereClause (bound params 2) Deal.createdBy (active_deals s)).

(** [.. ORDER BY createdAt DESC LIMIT 10]. *)
Definition select_recent_activities (whereClause : WhereClause) (params : list string)
    (s : Store) : list Activity.t :=
  firstn 10 (order_by_desc Activity.createdAt (union_all_activities whereClause params s)).

(* ================================================================= *)
(** ** The handlers *)

Section Handlers.
Context {P : Platform}.

(** [jwt.sign(payload, key, { expiresIn: '24h' })]; jsonwebtoken reads the
    clock for [iat]. *)
Definition sign_token (payload : TokenData.t) (key : string) : Js string :=
  now <- Date_now ;;
  ret (jwt_sign payload key expiresIn_24h now).

(** [jwt.verify(token, key)]: returns the decoded payload or throws. *)
Definition verify_token (token key : string) : Js Decoded.t :=
  now <- Date_now ;;
  match jwt_verify token key now with
  | Some decoded => ret decoded
  | None => throw
  end.

(** [v.toLowerCase()]: only a string has the method, on any other value
    the call throws a [TypeError]. *)
Definition call_toLowerCase (v : JsValue) : Js string :=
  match v with
  | JString s => ret (toLowerCase s)
  | _ => throw
  end.

(** [bcrypt.compare(data, hash)] with [hash] a string: bcrypt rejects data
    that is not a string, and the [await] throws. *)
Definition compare_password (data : JsValue) (hash : string) : Js bool :=
  match data with
  | JString s => ret (bcrypt_compare s hash)
  | _ => throw
  end.

(** [bcrypt.hash(data, rounds)], with the salt it draws: bcrypt rejects
    data that is not a string before it draws the salt. *)
Definition hash_password (data : JsValue) (rounds : Z) : Js string :=
  match data with
  | JString s =>
      salt <- random_text ;;
      ret (bcrypt_hash s rounds salt)
  | _ => throw
  end.

(** [!authHeader || !authHeader.startsWith('Bearer ')]. *)
Definition no_bearer (authHeader : option string) : bool :=
  (negb (truthy_text authHeader)
   || negb (match authHeader with
            | Some h => startsWith h "Bearer "
            | None => false
            end))%bool.

(** [row.count] of the row a [COUNT] query resolves to. *)
Definition count_of (row : option Z) : Js Z :=
  match row with
  | Some c => ret c
  | None => throw
  end.

(** [app.post('/api/auth/signin', ..)]. *)
Definition post_auth_signin (req : Request) : World -> Response * World :=
  try_catch
    (let email := body_email req in
     let password := body_password req in
     if (negb (truthy email) || negb (truthy password))%bool then
       ret (failure 400 "Email and password are required")
     else
       e <- call_toLowerCase email ;;
       user <- dbGet (select_user_by_email e) ;;
       match user with
       | None => ret (failure 401 "Invalid credentials")
       | Some user =>
           passwordMatch <- compare_password password (AuthUser.passwordHash user) ;;
           if negb passwordMatch then
             ret (failure 401 "Invalid credentials")
           else
             dbRun (deactivate_sessions (AuthUser.id user)) ;;;
             ts <- Date_now ;;
             let tokenData :=
               TokenData.mk (AuthUser.id user) (AuthUser.email user)
                            (AuthUser.role user) ts in
             key <- secret ;;
             token <- sign_token tokenData key ;;
             t1 <- Date_now ;;
             r <- random_text ;;
             let sessionId := "sess_" ++ number_toString t1 ++ "_" ++ substr 2 9 r in
             t2 <- Date_now ;;
             let expiresAt := t2 + 24 * 60 * 60 * 1000 in
             dbRun (insert_session sessionId (AuthUser.id user) token
                                   (toISOString expiresAt) (ip req) (user_agent req)) ;;;
             t3 <- Date_now ;;
             dbRun (update_lastLogin (toISOString t3) (AuthUser.id user)) ;;;
             ret (mkResponse 200 true (Some "Signed in successfully")
                             (SignedIn (Profile.of_user user) token))
       end)
    (failure 500 "Internal server error").

(** [app.get('/api/auth/me', ..)]. *)
Definition get_auth_me (req : Request) : World -> Response * World :=
  try_catch
    (let authHeader := authorization req in
     if no_bearer authHeader then
       ret (failure 401 "No token provided")
     else
       h <- required authHeader ;;
       let token := substring_from 7 h in
       key <- secret ;;
       decoded <- verify_token token key ;;
       user <- dbGet (select_user_by_id (Decoded.userId decoded)) ;;
       match user with
       | None => ret (failure 401 "User not found")
       | Some user =>
           ret (mkResponse 200 true None (CurrentUser (Profile.of_user user)))
       end)
    (failure 401 "Invalid token").

(** [app.get('/api/dashboard/metrics', ..)]. *)
Definition get_dashboard_metrics (req : Request) : World -> Response * World :=
  try_catch
    (let authHeader := authorization req in
     if no_bearer authHeader then
       ret (failure 401 "Authentication required")
     else
       h <- required authHeader ;;
       let token := substring_from 7 h in
       key <- secret ;;
       decoded <- verify_token token key ;;
       user <- dbGet (select_user_by_id (Decoded.userId decoded)) ;;
       match user with
       | None => ret (failure 401 "User not found")
       | Some user =>
           let '(whereClause, params) :=
             if negb (AuthUser.role user =? "admin")%string
             then (WhereCreatedBy, [AuthUser.id user])
             else (NoWhere, []) in
           leadCount <-
             dbGet (fun s => Some (select_count whereClause params Lead.createdBy (leads s))) ;;
           accountCount <-
             dbGet (fun s => Some (select_count whereClause params Account.createdBy (accounts s))) ;;
           dealCount <-
             dbGet (fun s => Some (select_count whereClause params Deal.createdBy (active_deals s))) ;;
           contactCount <-
             dbGet (fun s => Some (select_count whereClause params Contact.createdBy (contacts s))) ;;
           activities <- dbQuery (select_recent_activities whereClause params) ;;
           l <- count_of leadCount ;;
           a <- count_of accountCount ;;
           d <- count_of dealCount ;;
           c <- count_of contactCount ;;
           ret (mkResponse 200 true None
                           (Dashboard (Metrics.mk l a d c) activities (AuthUser.role user)))
       end)
    (failure 500 "Failed to fetch metrics").

(** [!adminUser || adminUser.role !== 'admin']. *)
Definition not_admin (adminUser : option AuthUser.t) : bool :=
  match adminUser with
  | None => true
  | Some u => negb (AuthUser.role u =? "admin")%string
  end.

(** [app.post('/api/admin/users', ..)].  The source lower-cases [email]
    three times, for the lookup, the insertion and the response, to the same
    text [e]. *)
Definition post_admin_users (req : Request) : World -> Response * World :=
  try_catch
    (let authHeader := authorization req in
     if no_bearer authHeader then
       ret (failure 401 "Authentication required")
     else
       h <- required authHeader ;;
       let token := substring_from 7 h in
       key <- secret ;;
       decoded <- verify_token token key ;;
       adminUser <- dbGet (select_user_by_id (Decoded.userId decoded)) ;;
       if not_admin adminUser then
         ret (failure 403 "Admin access required")
       else
         let email := body_email req in
         let displayName := body_displayName req in
         let password := body_password req in
         let role := with_default "user" (body_role req) in
         if (negb (truthy email) || negb (truthy displayName)
             || negb (truthy password))%bool then
           ret (failure 400 "Email, display name and password are required")
         else
           e <- call_toLowerCase email ;;
           existingUser <- dbGet (select_user_by_email e) ;;
           match existingUser with
           | Some _ => ret (failure 400 "User already exists")
           | None =>
               passwordHash <- hash_password password 10 ;;
               t0 <- Date_now ;;
               r <- random_text ;;
               let userId := "user_" ++ number_toString t0 ++ "_" ++ substr 2 9 r in
               t1 <- Date_now ;;
               t2 <- Date_now ;;
               dbRun (insert_user userId e (column_text displayName) passwordHash
                                  (column_text role)
                                  (toISOString t1) (toISOString t2)) ;;;
               ret (mkResponse 200 true (Some "User created successfully")
                               (CreatedUser (NewUser.mk userId e displayName role)))
           end)
    (failure 500 "Failed to create user").

(** [app.get('/api/admin/users', ..)]. *)
Definition get_admin_users (req : Request) : World -> Response * World :=
  try_catch
    (let authHeader := authorization req in
     if no_bearer authHeader then
       ret (failure 401 "Authentication required")
     else
       h <- required authHeader ;;
       let token := substring_from 7 h in
       key <- secret ;;
       decoded <- verify_token token key ;;
       adminUser <- dbGet (select_user_by_id (Decoded.userId decoded)) ;;
       if not_admin adminUser then
         ret (failure 403 "Admin access required")
       else
         users <- dbQuery select_all_users ;;
         ret (mkResponse 200 true None (UserList users)))
    (failure 500 "Failed to fetch users").

End Handlers.

(* ================================================================= *)
(** ** Letter case on the letters [A]..[Z] *)

Lemma lower_of_upper (c : ascii) :
  is_upper c = true -> is_upper (ascii_of_nat (nat_of_ascii c + 32)) = false.
Proof.
  unfold is_upper. intros H.
  apply andb_true_iff in H. destruct H as [H1 H2].
  apply Nat.leb_le in H1, H2.
  rewrite nat_ascii_embedding by lia.
  apply andb_false_iff. right. apply Nat.leb_gt. lia.
Qed.

Lemma case_variant_lower (c1 c2 : ascii) :
  case_variant c1 c2 = true -> lower_ascii c1 = lower_ascii c2.
Proof.
  unfold case_variant. intros H.
  apply orb_true_iff in H. destruct H as [H|H].
  - apply orb_true_iff in H. destruct H as [H|H].
    + apply Ascii.eqb_eq in H. now subst.
    + apply andb_true_iff in H. destruct H as [Hu H].
      apply Ascii.eqb_eq in H. subst c2.
      unfold lower_ascii. now rewrite Hu, (lower_of_upper _ Hu).
  - apply andb_true_iff in H. destruct H as [Hu H].
    apply Ascii.eqb_eq in H. subst c1.
    unfold lower_ascii. now rewrite Hu, (lower_of_upper _ Hu).
Qed.

Lemma differs_only_in_case_lower (s1 s2 : string) :
  differs_only_in_case s1 s2 = true -> lower_A_to_Z s1 = lower_A_to_Z s2.
Proof.
  revert s2. induction s1 as [|c1 r1 IH]; intros [|c2 r2]; simpl;
    try discriminate; [reflexivity|].
  intros H. apply andb_true_iff in H. destruct H as [Hc Hr].
  now rewrite (case_variant_lower _ _ Hc), (IH _ Hr).
Qed.

Lemma lower_ascii_idempotent (c : ascii) : lower_ascii (lower_ascii c) = lower_ascii c.
Proof.
  unfold lower_ascii. destruct (is_upper c) eqn:Hu.
  - now rewrite (lower_of_upper _ Hu).
  - now rewrite Hu.
Qed.

Lemma lower_A_to_Z_idempotent (s : string) : lower_A_to_Z (lower_A_to_Z s) = lower_A_to_Z s.
Proof.
  induction s as [|c s IH]; simpl; [reflexivity|].
  now rewrite lower_ascii_idempotent, IH.
Qed.

(* ================================================================= *)
(** ** A reference platform

    An executable [Platform] on which the handlers can be run: it
    lower-cases the letters [A]..[Z], its tokens spell out the key and the
    claims, field by field, and its verification reads them back, compares
    the key and checks the expiry. *)

Module Reference.

(** A field is written character by character, each after a [+], and
    closed by a [.]. *)
Fixpoint put (field rest : string) : string :=
  match field with
  | EmptyString => String "." rest
  | String c field' => String "+" (String c (put field' rest))
  end.

Fixpoint get (s : string) : option (string * string) :=
  match s with
  | String a s' =>
      if Ascii.eqb a "." then Some (EmptyString, s')
      else if Ascii.eqb a "+" then
        match s' with
        | String c s'' =>
            match get s'' with
            | Some (field, rest) => Some (String c field, rest)
            | None => None
            end
        | EmptyString => None
        end
      else None
  | EmptyString => None
  end.

Definition put_number (z : Z) (rest : string) : string :=
  put (NilEmpty.string_of_int (Z.to_int z)) rest.

Definition get_number (s : string) : option (Z * string) :=
  match get s with
  | Some (field, rest) =>
      match NilEmpty.int_of_string field with
      | Some d => Some (Z.of_int d, rest)
      | None => None
      end
  | None => None
  end.

Definition sign (p : TokenData.t) (key : string) (ttl now : Z) : string :=
  put key
    (put (TokenData.userId p)
       (put (TokenData.email p)
          (put (TokenData.role p)
             (put_number (TokenData.timestamp p)
                (put_number (now / 1000)
                   (put_number (now / 1000 + ttl) EmptyString)))))).

Definition verify (token key : string) (now : Z) : option Decoded.t :=
  match get token with
  | Some (k, r0) =>
    match get r0 with
    | Some (userId, r1) =>
      match get r1 with
      | Some (email, r2) =>
        match get r2 with
        | Some (role, r3) =>
          match get_number r3 with
          | Some (timestamp, r4) =>
            match get_number r4 with
            | Some (iat, r5) =>
              match get_number r5 with
              | Some (exp, _) =>
                  if ((k =? key)%string && (now / 1000 <? exp))%bool
                  then Some (Decoded.mk (TokenData.mk userId email role timestamp) iat exp)
                  else None
              | None => None
              end
            | None => None
            end
          | None => None
          end
        | None => None
        end
      | None => None
      end
    | None => None
    end
  | None => None
  end.

(** The hash of the reference platform keeps the data in the clear after
    the salt; comparison reads the data back. *)
Definition hash (data : string) (rounds : Z) (salt : string) : string :=
  put salt data.

Definition compare (data hash : string) : bool :=
  match get hash with
  | Some (_, d) => (d =? data)%string
  | None => false
  end.

(** A value that is not a string is known by the text of its type. *)
Definition text_of (v : JsValue) : string :=
  match v with
  | JUndefined | JNull => "null"
  | JBool true => "1"
  | JBool false => "0"
  | JNumber _ => "number"
  | JString s => s
  | JArray _ => "array"
  | JObject _ => "[object Object]"
  end.

(** Dates are printed as their number of milliseconds. *)
Definition platform : Platform :=
  {| toLowerCase := lower_A_to_Z;
     bcrypt_compare := compare;
     bcrypt_hash := hash;
     jwt_sign := sign;
     jwt_verify := verify;
     toISOString := number_toString;
     sqlite_text := text_of;
     toLowerCase_idempotent := lower_A_to_Z_idempotent |}.

End Reference.

(* ================================================================= *)
(** ** Vocabulary of the contract *)

(** The request field [v] is present, with the non-empty text [s]. *)
Definition present (v : JsValue) (s : string) : Prop :=
  v = JString s /\ (s =? "")%string = false.

(** [u.role === 'admin']. *)
Definition is_admin (u : AuthUser.t) : bool := (AuthUser.role u =? "admin")%string.

(** The rows of [auth_sessions] of user [uid] whose [isActive] is 1. *)
Definition active_sessions_of (uid : string) (s : Store) : list AuthSession.t :=
  filter (fun r => ((AuthSession.userId r =? uid)%string && AuthSession.isActive r)%bool)
         (auth_sessions s).

(** Identity resolution succeeds on [req] in [w] and yields the user [u]:
    the request carries [Bearer <token>], the token verifies at the next
    instant under the signing key, and the user of its [userId] claim is the
    row [u]. *)
Definition resolves {P : Platform} (req : Request) (w : World) (u : AuthUser.t) : Prop :=
  exists h decoded,
    authorization req = Some h
    /\ startsWith h "Bearer " = true
    /\ jwt_verify (substring_from 7 h) (signing_key (JWT_SECRET w)) (next_instant w)
       = Some decoded
    /\ select_user_by_id (Decoded.userId decoded) (db w) = Some u.

(** The request carries a bearer token that verification rejects (bad
    signature, malformed, or expired) at the next instant. *)
Definition carries_rejected_token {P : Platform} (req : Request) (w : World) : Prop :=
  exists h,
    authorization req = Some h
    /\ startsWith h "Bearer " = true
    /\ jwt_verify (substring_from 7 h) (signing_key (JWT_SECRET w)) (next_instant w)
       = None.

(** The response of a successful sign-in. *)
Definition signed_in (user : Profile.t) (token : string) : Response :=
  mkResponse 200 true (Some "Signed in successfully") (SignedIn user token).

(** The token a successful sign-in of [u] in [w] carries: the claims hold
    the first reading of the clock, jsonwebtoken signs at the second. *)
Definition issued_token {P : Platform} (u : AuthUser.t) (w : World) : string :=
  jwt_sign (TokenData.mk (AuthUser.id u) (AuthUser.email u) (AuthUser.role u)
                         (nth 0 (clock w) 0))
           (signing_key (JWT_SECRET w)) expiresIn_24h (nth 1 (clock w) 0).

(** The store a successful sign-in of [u] in [w] leaves: the sessions of
    [u] deactivated, the new session appended, the last login recorded. *)
Definition store_after_signin {P : Platform} (req : Request) (u : AuthUser.t) (w : World)
  : Store :=
  update_lastLogin (toISOString (nth 4 (clock w) 0)) (AuthUser.id u)
    (insert_session
       ("sess_" ++ number_toString (nth 2 (clock w) 0) ++ "_"
        ++ substr 2 9 (hd "" (entropy w)))
       (AuthUser.id u) (issued_token u w)
       (toISOString (nth 3 (clock w) 0 + 24 * 60 * 60 * 1000))
       (ip req) (user_agent req)
       (deactivate_sessions (AuthUser.id u) (db w))).

(** The column [createdBy] holds the identifier [uid]. *)
Definition created_by (uid : string) (c : nullable) : bool :=
  match c with
  | Some x => (x =? uid)%string
  | None => false
  end.

(** The number of rows of a table that [uid] created. *)
Definition owned_count {A} (createdBy : A -> nullable) (uid : string) (rows : list A) : Z :=
  Z.of_nat (List.length (filter (fun r => created_by uid (createdBy r)) rows)).

(** The activity [a] is the feed entry of a lead, account or deal of the
    store that [uid] created. *)
Definition owned_activity (uid : string) (s : Store) (a : Activity.t) : Prop :=
  (exists r, In r (leads s) /\ Lead.createdBy r = Some uid /\ a = lead_activity r)
  \/ (exists r, In r (accounts s) /\ Account.createdBy r = Some uid
                /\ a = account_activity r)
  \/ (exists r, In r (active_deals s) /\ Deal.createdBy r = Some uid
                /\ a = deal_activity r).

(** The type tag of a feed entry is one of the three the feed is built of. *)
Definition feed_type (a : Activity.t) : Prop :=
  Activity.type a = "lead" \/ Activity.type a = "account" \/ Activity.type a = "deal".

(** The rows of a table that the dashboard of [u] covers: all of them for an
    admin, those [u] created otherwise. *)
Definition covered_by {A} (u : AuthUser.t) (createdBy : A -> nullable) (rows : list A)
  : list A :=
  if is_admin u then rows
  else filter (fun r => created_by (AuthUser.id u) (createdBy r)) rows.

(** The profile under which a created user is stored: [displayName] and
    [role] as the columns hold them. *)
Definition stored_profile {P : Platform} (c : NewUser.t) : Profile.t :=
  Profile.mk (NewUser.id c) (NewUser.email c)
             (column_text (NewUser.role c)) (column_text (NewUser.displayName c)).

(** The request carries a bearer token that verifies, at the next instant
    under the signing key, to the payload [decoded]. *)
Definition bearer_decodes {P : Platform} (req : Request) (w : World) (decoded : Decoded.t)
  : Prop :=
  exists h,
    authorization req = Some h
    /\ startsWith h "Bearer " = true
    /\ jwt_verify (substring_from 7 h) (signing_key (JWT_SECRET w)) (next_instant w)
       = Some decoded.

(** Two requests have the same body fields. *)
Definition same_body (req1 req2 : Request) : Prop :=
  body_email req1 = body_email req2
  /\ body_displayName req1 = body_displayName req2
  /\ body_password req1 = body_password req2
  /\ body_role req1 = body_role req2.

(** All the rows of [auth_sessions] of user [uid], active or not. *)
Definition sessions_of (uid : string) (s : Store) : list AuthSession.t :=
  filter (fun r => (AuthSession.userId r =? uid)%string) (auth_sessions s).

(** A user row without its [lastLogin] column. *)
Definition forget_lastLogin (u : AuthUser.t) : AuthUser.t :=
  AuthUser.mk (AuthUser.id u) (AuthUser.email u) (AuthUser.displayName u)
              (AuthUser.passwordHash u) (AuthUser.role u) (AuthUser.emailVerified u)
              (AuthUser.createdAt u) (AuthUser.updatedAt u) None.

(** The stored emails are pairwise distinct and in lower case. *)
Definition emails_canonical {P : Platform} (s : Store) : Prop :=
  NoDup (map AuthUser.email (auth_users s))
  /\ Forall (fun u => toLowerCase (AuthUser.email u) = AuthUser.email u) (auth_users s).

(* ================================================================= *)
(** ** Sample data *)

Module Sample.
Import Reference.

Definition root : AuthUser.t :=
  AuthUser.mk "u0" "admin@yitro.com" "Root" (hash "admin123" 10 "s0")
              "admin" true "2024-01-01" "2024-01-01" None.

Definition alice : AuthUser.t :=
  AuthUser.mk "u1" "alice@x.com" "Alice" (hash "wonderland" 10 "s1")
              "user" true "2024-01-02" "2024-01-02" None.

Definition store : Store :=
  mkStore [root; alice]
          [AuthSession.mk "sess_0_a" "u1" "old-token" "2024-01-03" "10.0.0.1" None true]
          [Lead.mk "Ann" "Lee" "new" "2024-02-02" (Some "u1");
           Lead.mk "Bo" "Chen" "won" "2024-02-05" (Some "u0")]
          [Account.mk "Acme" "open" "2024-02-03" (Some "u1")]
          [Deal.mk "Big" "won" "2024-02-04" (Some "u1")]
          [Contact.mk (Some "u1"); Contact.mk None].

Definition world : World :=
  mkWorld store [1000; 2000; 3000; 4000; 5000; 6000] []
          ["0.abcdefghijklmn"; "0.zyxwvutsrqponm"] None.

Definition credentials (email password : string) : Request :=
  mkRequest None (JString email) JUndefined (JString password) JUndefined
            "10.0.0.2" (Some "curl").

Definition bearer (token : string) : Request :=
  mkRequest (Some ("Bearer " ++ token)) JUndefined JUndefined JUndefined JUndefined
            "10.0.0.2" None.

Definition new_user (token email displayName password : string) : Request :=
  mkRequest (Some ("Bearer " ++ token)) (JString email) (JString displayName)
            (JString password) JUndefined "10.0.0.2" None.

(** A token of the reference platform for [u], signed at instant 0. *)
Definition token_of (u : AuthUser.t) : string :=
  sign (TokenData.mk (AuthUser.id u) (AuthUser.email u) (AuthUser.role u) 0)
       "default-secret" expiresIn_24h 0.
End Sample.

(* ================================================================= *)
(** ** Basic facts *)

(** The reference platform keeps the promise of jsonwebtoken. *)

Lemma get_put (field rest : string) :
  Reference.get (Reference.put field rest) = Some (field, rest).
Proof.
  induction field as [|c field IH]; simpl.
  - reflexivity.
  - now rewrite IH.
Qed.

Lemma get_put_number (z : Z) (rest : string) :
  Reference.get_number (Reference.put_number z rest) = Some (z, rest).
Proof.
  unfold Reference.get_number, Reference.put_number.
  rewrite get_put, NilEmpty.isi.
  now rewrite DecimalZ.of_to.
Qed.

Lemma reference_jwt_faithful : jwt_faithful Reference.platform.
Proof.
  intros p k ttl t t' Hlive. simpl.
  unfold Reference.verify, Reference.sign.
  rewrite !get_put, !get_put_number.
  rewrite String.eqb_refl.
  apply Z.ltb_lt in Hlive. rewrite Hlive. simpl.
  now destruct p.
Qed.

Lemma truthy_present (v : JsValue) (s : string) :
  present v s -> truthy v = true.
Proof.
  intros [-> Hs]. simpl. now rewrite Hs.
Qed.

Lemma bearer_present (h : string) :
  startsWith h "Bearer " = true -> no_bearer (Some h) = false.
Proof.
  intros Hb. unfold no_bearer. rewrite Hb. simpl.
  destruct h; [discriminate | reflexivity].
Qed.

Lemma bearer_startsWith (token : string) :
  startsWith ("Bearer " ++ token) "Bearer " = true.
Proof.
  unfold startsWith. simpl. now destruct token.
Qed.

Lemma readings (l : list Z) :
  hd 0 l = nth 0 l 0
  /\ hd 0 (tl l) = nth 1 l 0
  /\ hd 0 (tl (tl l)) = nth 2 l 0
  /\ hd 0 (tl (tl (tl l))) = nth 3 l 0
  /\ hd 0 (tl (tl (tl (tl l)))) = nth 4 l 0.
Proof.
  destruct l as [|t0 [|t1 [|t2 [|t3 [|t4 l]]]]]; repeat split.
Qed.

(** Splits [accepts n w] into the verdicts on the next [n] statements. *)
Ltac split_accepts H :=
  unfold accepts in H; simpl in H;
  repeat (apply andb_true_iff in H;
          let H0 := fresh "Hacc" in
          destruct H as [H0 H]; apply negb_true_iff in H0).

(** Unfolds the steps of a handler. *)
Ltac run :=
  unfold sign_token, verify_token, hash_password, compare_password, call_toLowerCase;
  unfold bind, dbGet, dbRun, dbQuery, db_call, Date_now, random_text, secret,
         required, count_of, ret, throw;
  simpl.

(** Case analysis on the next test of a handler: the innermost scrutinee
    the hypothesis is stuck on. *)
Ltac branch :=
  match goal with
  | H : context [match ?x with _ => _ end] |- _ =>
      lazymatch x with
      | context [match _ with _ => _ end] => fail
      | _ => destruct x eqn:?; simpl in H
      end
  end.

(** ** Ordering *)

Lemma ltb_leb (s1 s2 : string) : String.ltb s1 s2 = true -> String.leb s1 s2 = true.
Proof.
  unfold String.ltb, String.leb. now destruct (String.compare s1 s2).
Qed.

Lemma not_ltb_leb (s1 s2 : string) : String.ltb s1 s2 = false -> String.leb s2 s1 = true.
Proof.
  unfold String.ltb, String.leb. rewrite (String.compare_antisym s2 s1).
  now destruct (String.compare s1 s2).
Qed.

Lemma leb_trans (a b c : string) :
  String.leb a b = true -> String.leb b c = true -> String.leb a c = true.
Proof.
  revert b c. induction a as [|x a IH]; intros b c Hab Hbc.
  - now destruct c.
  - destruct b as [|y b]; [discriminate Hab|].
    destruct c as [|z c]; [discriminate Hbc|].
    unfold String.leb in *. simpl in *.
    destruct (Ascii.compare x y) eqn:Exy; try discriminate Hab;
      destruct (Ascii.compare y z) eqn:Eyz; try discriminate Hbc.
    + apply Ascii.compare_eq_iff in Exy, Eyz. subst y z.
      unfold Ascii.compare. rewrite N.compare_refl.
      apply (IH b c Hab Hbc).
    + apply Ascii.compare_eq_iff in Exy. subst y. now rewrite Eyz.
    + apply Ascii.compare_eq_iff in Eyz. subst z. now rewrite Exy.
    + unfold Ascii.compare in *.
      apply N.compare_lt_iff in Exy, Eyz.
      pose proof (N.lt_trans _ _ _ Exy Eyz) as Hxz.
      apply N.compare_lt_iff in Hxz. now rewrite Hxz.
Qed.

Section OrderByFacts.
Context {A : Type} (key : A -> string).

Lemma insert_desc_In (x a : A) (l : list A) :
  In a (insert_desc key x l) <-> a = x \/ In a l.
Proof.
  induction l as [|y l IH]; simpl.
  - intuition.
  - destruct (String.ltb (key x) (key y)); simpl; rewrite ?IH; intuition.
Qed.

Lemma order_by_desc_In (a : A) (l : list A) :
  In a (order_by_desc key l) <-> In a l.
Proof.
  induction l as [|x l IH]; simpl.
  - reflexivity.
  - rewrite insert_desc_In, IH. intuition.
Qed.

Lemma insert_desc_HdRel (x y : A) (l : list A) :
  desc key y x -> HdRel (desc key) y l -> HdRel (desc key) y (insert_desc key x l).
Proof.
  intros Hyx Hyl. destruct l as [|z l]; simpl.
  - now constructor.
  - destruct (String.ltb (key x) (key z)); constructor; trivial.
    now inversion Hyl.
Qed.

Lemma insert_desc_Sorted (x : A) (l : list A) :
  Sorted (desc key) l -> Sorted (desc key) (insert_desc key x l).
Proof.
  induction 1 as [|y l Hs IH Hhd]; simpl.
  - repeat constructor.
  - destruct (String.ltb (key x) (key y)) eqn:E.
    + constructor; [exact IH|].
      apply insert_desc_HdRel; [|exact Hhd].
      apply ltb_leb, E.
    + constructor; [now constructor|].
      constructor. apply not_ltb_leb, E.
Qed.

Lemma order_by_desc_Sorted (l : list A) : Sorted (desc key) (order_by_desc key l).
Proof.
  induction l as [|x l IH]; simpl.
  - constructor.
  - now apply insert_desc_Sorted.
Qed.

Lemma firstn_Sorted (n : nat) (l : list A) :
  Sorted (desc key) l -> Sorted (desc key) (firstn n l).
Proof.
  revert l. induction n as [|n IH]; intros l Hs; simpl.
  - constructor.
  - destruct l as [|x l]; [constructor|].
    inversion Hs as [|? ? Hl Hhd]; subst.
    constructor; [now apply IH|].
    destruct n; simpl; [constructor|].
    destruct l; [constructor|].
    constructor. now inversion Hhd.
Qed.

Lemma desc_transitive : Relations_1.Transitive (desc key).
Proof.
  intros a b c Hab Hbc. unfold desc in *.
  exact (leb_trans _ _ _ Hbc Hab).
Qed.

Lemma limit_order_by_desc_sorted (n : nat) (l : list A) :
  StronglySorted (desc key) (firstn n (order_by_desc key l)).
Proof.
  apply Sorted_StronglySorted; [exact desc_transitive|].
  apply firstn_Sorted, order_by_desc_Sorted.
Qed.

End OrderByFacts.

Lemma firstn_incl {A : Type} (n : nat) (a : A) (l : list A) :
  In a (firstn n l) -> In a l.
Proof.
  revert l. induction n as [|n IH]; intros [|x l]; simpl; intuition.
Qed.

(** ** Lookups *)

Lemma created_by_iff (uid : string) (c : nullable) :
  created_by uid c = true <-> c = Some uid.
Proof.
  destruct c as [x|]; simpl.
  - rewrite String.eqb_eq. split; congruence.
  - split; discriminate.
Qed.

Lemma sql_eq_created_by (uid : string) (c : nullable) :
  sql_eq c (Some uid) = created_by uid c.
Proof. now destruct c. Qed.

Lemma sql_eq_unbound (c : nullable) : sql_eq c None = false.
Proof. now destruct c. Qed.

Lemma find_unique_id (us : list AuthUser.t) (u : AuthUser.t) :
  NoDup (map AuthUser.id us) ->
  In u us ->
  find (fun x => (AuthUser.id x =? AuthUser.id u)%string) us = Some u.
Proof.
  induction us as [|a us IH]; simpl; intros Hnd Hin; [contradiction|].
  inversion Hnd as [|? ? Hfresh Hrest]; subst.
  destruct Hin as [->|Hin].
  - now rewrite String.eqb_refl.
  - destruct (AuthUser.id a =? AuthUser.id u)%string eqn:E.
    + apply String.eqb_eq in E. exfalso. apply Hfresh.
      rewrite E. now apply in_map.
    + now apply IH.
Qed.

Lemma find_last (A : Type) (p : A -> bool) (l : list A) (x : A) :
  p x = true -> exists y, find p (l ++ [x]) = Some y.
Proof.
  intros Hx. induction l as [|a l IH]; simpl.
  - rewrite Hx. now exists x.
  - destruct (p a); [now exists a | exact IH].
Qed.

Lemma select_by_id_after_signin {P : Platform} (req : Request) (u : AuthUser.t) (w : World) (i : string) :
  select_user_by_id i (store_after_signin req u w)
  = option_map (fun x => if (AuthUser.id x =? AuthUser.id u)%string
                         then AuthUser.set_lastLogin (toISOString (nth 4 (clock w) 0)) x
                         else x)
               (select_user_by_id i (db w)).
Proof.
  unfold select_user_by_id, store_after_signin. simpl.
  induction (auth_users (db w)) as [|a us IH]; simpl; [reflexivity|].
  destruct (AuthUser.id a =? AuthUser.id u)%string eqn:Eu; simpl;
    destruct (AuthUser.id a =? i)%string; simpl; rewrite ?Eu; trivial.
Qed.

Section Contract.
Context {P : Platform}.

(** ** Sign-in *)

Lemma signin_rejects_mismatch (req : Request) (w : World) (e pw : string) (u : AuthUser.t) :
  present (body_email req) e ->
  present (body_password req) pw ->
  accepts 1 w ->
  select_user_by_email (toLowerCase e) (db w) = Some u ->
  bcrypt_compare pw (AuthUser.passwordHash u) = false ->
  fst (post_auth_signin req w) = failure 401 "Invalid credentials"
  /\ db (snd (post_auth_signin req w)) = db w.
Proof.
  intros He Hp Hacc Hsel Hcmp.
  unfold post_auth_signin, try_catch.
  rewrite (truthy_present _ _ He), (truthy_present _ _ Hp).
  destruct He as [-> _], Hp as [-> _].
  split_accepts Hacc. run.
  rewrite Hacc0. simpl. rewrite Hsel. simpl. rewrite Hcmp. simpl.
  split; reflexivity.
Qed.

Lemma signin_rejects_unknown (req : Request) (w : World) (e : string) :
  present (body_email req) e ->
  truthy (body_password req) = true ->
  accepts 1 w ->
  select_user_by_email (toLowerCase e) (db w) = None ->
  fst (post_auth_signin req w) = failure 401 "Invalid credentials"
  /\ db (snd (post_auth_signin req w)) = db w.
Proof.
  intros He Hp Hacc Hsel.
  unfold post_auth_signin, try_catch.
  rewrite (truthy_present _ _ He), Hp.
  destruct He as [-> _].
  split_accepts Hacc. run.
  rewrite Hacc0. simpl. rewrite Hsel. simpl.
  split; reflexivity.
Qed.

Lemma signin_rejects_non_string_password (req : Request) (w : World) (e : string)
    (u : AuthUser.t) :
  present (body_email req) e ->
  truthy (body_password req) = true ->
  is_string (body_password req) = false ->
  accepts 1 w ->
  select_user_by_email (toLowerCase e) (db w) = Some u ->
  fst (post_auth_signin req w) = failure 500 "Internal server error"
  /\ db (snd (post_auth_signin req w)) = db w.
Proof.
  intros He Hp Hstr Hacc Hsel.
  unfold post_auth_signin, try_catch.
  rewrite (truthy_present _ _ He), Hp.
  destruct He as [-> _].
  split_accepts Hacc. run.
  rewrite Hacc0. simpl. rewrite Hsel. simpl.
  destruct (body_password req); try discriminate Hstr; split; reflexivity.
Qed.

Lemma signin_succeeds (req : Request) (w : World) (e pw : string) (u : AuthUser.t) :
  present (body_email req) e ->
  present (body_password req) pw ->
  accepts 4 w ->
  select_user_by_email (toLowerCase e) (db w) = Some u ->
  bcrypt_compare pw (AuthUser.passwordHash u) = true ->
  fst (post_auth_signin req w) = signed_in (Profile.of_user u) (issued_token u w)
  /\ db (snd (post_auth_signin req w)) = store_after_signin req u w
  /\ JWT_SECRET (snd (post_auth_signin req w)) = JWT_SECRET w.
Proof.
  intros He Hp Hacc Hsel Hcmp.
  unfold post_auth_signin, try_catch.
  rewrite (truthy_present _ _ He), (truthy_present _ _ Hp).
  destruct He as [-> _], Hp as [-> _].
  split_accepts Hacc. run.
  rewrite Hacc0. simpl. rewrite Hsel. simpl. rewrite Hcmp. simpl.
  rewrite Hacc1. simpl. rewrite Hacc2. simpl. rewrite Hacc3. simpl.
  unfold store_after_signin, issued_token.
  destruct (readings (clock w)) as (-> & -> & -> & -> & ->).
  repeat split.
Qed.

Lemma signin_success_inv (req : Request) (w : World) :
  status (fst (post_auth_signin req w)) = 200 ->
  exists e pw u,
    present (body_email req) e
    /\ present (body_password req) pw
    /\ accepts 4 w
    /\ select_user_by_email (toLowerCase e) (db w) = Some u
    /\ bcrypt_compare pw (AuthUser.passwordHash u) = true.
Proof.
  unfold post_auth_signin, try_catch. intros H.
  destruct (body_email req) as [| |be|be|e|be|be];
    destruct (body_password req) as [| |bp|bp|pw|bp|bp];
    try (revert H; run; intros H; try discriminate H;
         repeat (branch; try discriminate H); fail).
  destruct (truthy (JString e)) eqn:Te;
    [|discriminate H].
  destruct (truthy (JString pw)) eqn:Tp; [|discriminate H].
  simpl in H. revert H. run. intros H.
  repeat (branch; try discriminate H).
  exists e, pw. eexists.
  simpl in Te, Tp. apply negb_true_iff in Te, Tp.
  unfold present, accepts. simpl.
  repeat match goal with
         | E : hd false _ = false |- _ => rewrite E; clear E
         end.
  repeat split; try eassumption; try reflexivity.
  match goal with
  | E : negb _ = false |- _ => now apply negb_false_iff in E
  end.
Qed.

Lemma signin_insert_rejected (req : Request) (w : World) (e pw : string) (u : AuthUser.t) :
  present (body_email req) e ->
  present (body_password req) pw ->
  rejects_after 2 w ->
  select_user_by_email (toLowerCase e) (db w) = Some u ->
  bcrypt_compare pw (AuthUser.passwordHash u) = true ->
  fst (post_auth_signin req w) = failure 500 "Internal server error"
  /\ db (snd (post_auth_signin req w)) = deactivate_sessions (AuthUser.id u) (db w).
Proof.
  intros He Hp [Hacc Hrej] Hsel Hcmp.
  unfold post_auth_signin, try_catch.
  rewrite (truthy_present _ _ He), (truthy_present _ _ Hp).
  destruct He as [-> _], Hp as [-> _].
  fold (accepts 2 w) in Hacc. split_accepts Hacc.
  assert (Hthird : hd false (tl (tl (faults w))) = true).
  { rewrite <- Hrej. now destruct (faults w) as [|b0 [|b1 [|b2 fs]]]. }
  run.
  rewrite Hacc0. simpl. rewrite Hsel. simpl. rewrite Hcmp. simpl.
  rewrite Hacc1. simpl. rewrite Hthird. simpl.
  split; reflexivity.
Qed.

(** ** The session ledger *)

Lemma no_active_after_deactivate (uid : string) (s : Store) :
  active_sessions_of uid (deactivate_sessions uid s) = [].
Proof.
  unfold active_sessions_of, deactivate_sessions. simpl.
  induction (auth_sessions s) as [|r rs IH]; simpl; [reflexivity|].
  destruct (AuthSession.userId r =? uid)%string eqn:Eu; simpl.
  - destruct (AuthSession.isActive r) eqn:Ea; simpl.
    + rewrite Eu. simpl. exact IH.
    + rewrite Eu, Ea. simpl. exact IH.
  - rewrite Eu. simpl. exact IH.
Qed.

Lemma active_after_insert (uid sid token expiresAt ipAddress : string)
    (userAgent : nullable) (s : Store) :
  active_sessions_of uid (insert_session sid uid token expiresAt ipAddress userAgent s)
  = (active_sessions_of uid s
     ++ [AuthSession.mk sid uid token expiresAt ipAddress userAgent true])%list.
Proof.
  unfold active_sessions_of, insert_session. simpl.
  rewrite filter_app. simpl. now rewrite String.eqb_refl.
Qed.

Lemma one_active_after_signin (req : Request) (u : AuthUser.t) (w : World) :
  List.length (active_sessions_of (AuthUser.id u) (store_after_signin req u w)) = 1%nat.
Proof.
  unfold store_after_signin.
  change (active_sessions_of (AuthUser.id u) (update_lastLogin ?a ?i ?s))
    with (active_sessions_of (AuthUser.id u) s).
  now rewrite active_after_insert, no_active_after_deactivate.
Qed.

(** ** Identity resolution *)

Lemma me_resolves (req : Request) (w : World) (u : AuthUser.t) :
  resolves req w u ->
  accepts 1 w ->
  fst (get_auth_me req w) = mkResponse 200 true None (CurrentUser (Profile.of_user u))
  /\ db (snd (get_auth_me req w)) = db w.
Proof.
  intros (h & d & Hh & Hb & Hv & Hsel) Hacc.
  unfold get_auth_me, try_catch. rewrite Hh, (bearer_present _ Hb).
  split_accepts Hacc. run.
  unfold next_instant in Hv. rewrite Hv. simpl.
  rewrite Hacc0. simpl. rewrite Hsel. simpl.
  split; reflexivity.
Qed.

Lemma me_rejects_token (req : Request) (w : World) :
  carries_rejected_token req w ->
  fst (get_auth_me req w) = failure 401 "Invalid token".
Proof.
  intros (h & Hh & Hb & Hv).
  unfold get_auth_me, try_catch. rewrite Hh, (bearer_present _ Hb).
  run. unfold next_instant in Hv. now rewrite Hv.
Qed.

Lemma metrics_rejects_token (req : Request) (w : World) :
  carries_rejected_token req w ->
  fst (get_dashboard_metrics req w) = failure 500 "Failed to fetch metrics".
Proof.
  intros (h & Hh & Hb & Hv).
  unfold get_dashboard_metrics, try_catch. rewrite Hh, (bearer_present _ Hb).
  run. unfold next_instant in Hv. now rewrite Hv.
Qed.

Lemma create_user_rejects_token (req : Request) (w : World) :
  carries_rejected_token req w ->
  fst (post_admin_users req w) = failure 500 "Failed to create user".
Proof.
  intros (h & Hh & Hb & Hv).
  unfold post_admin_users, try_catch. rewrite Hh, (bearer_present _ Hb).
  run. unfold next_instant in Hv. now rewrite Hv.
Qed.

Lemma list_users_rejects_token (req : Request) (w : World) :
  carries_rejected_token req w ->
  fst (get_admin_users req w) = failure 500 "Failed to fetch users".
Proof.
  intros (h & Hh & Hb & Hv).
  unfold get_admin_users, try_catch. rewrite Hh, (bearer_present _ Hb).
  run. unfold next_instant in Hv. now rewrite Hv.
Qed.

(** ** The role gate *)

Lemma create_user_forbidden (req : Request) (w : World) (u : AuthUser.t) :
  resolves req w u ->
  accepts 1 w ->
  is_admin u = false ->
  fst (post_admin_users req w) = failure 403 "Admin access required"
  /\ db (snd (post_admin_users req w)) = db w.
Proof.
  intros (h & d & Hh & Hb & Hv & Hsel) Hacc Hrole.
  unfold post_admin_users, try_catch. rewrite Hh, (bearer_present _ Hb).
  split_accepts Hacc. run.
  unfold next_instant in Hv. rewrite Hv. simpl.
  rewrite Hacc0. simpl. rewrite Hsel. simpl.
  unfold is_admin in Hrole. rewrite Hrole. simpl.
  split; reflexivity.
Qed.

(** ** Creating users *)

Lemma create_user_duplicate (req : Request) (w : World) (u x : AuthUser.t)
    (e : string) :
  resolves req w u ->
  is_admin u = true ->
  present (body_email req) e ->
  truthy (body_displayName req) = true ->
  truthy (body_password req) = true ->
  accepts 2 w ->
  select_user_by_email (toLowerCase e) (db w) = Some x ->
  fst (post_admin_users req w) = failure 400 "User already exists"
  /\ db (snd (post_admin_users req w)) = db w.
Proof.
  intros (h & d & Hh & Hb & Hv & Hsel) Hrole He Hdn Hp Hacc Hdup.
  unfold post_admin_users, try_catch. rewrite Hh, (bearer_present _ Hb).
  rewrite (truthy_present _ _ He), Hdn, Hp.
  destruct He as [-> _].
  split_accepts Hacc. run.
  unfold next_instant in Hv. rewrite Hv. simpl.
  rewrite Hacc0. simpl. rewrite Hsel. simpl.
  unfold is_admin in Hrole. rewrite Hrole. simpl.
  rewrite Hacc1. simpl. rewrite Hdup. simpl.
  split; reflexivity.
Qed.

Lemma create_user_success_inv (req : Request) (w : World) :
  status (fst (post_admin_users req w)) = 200 ->
  exists u e pw,
    resolves req w u
    /\ is_admin u = true
    /\ present (body_email req) e
    /\ truthy (body_displayName req) = true
    /\ present (body_password req) pw
    /\ accepts 3 w
    /\ select_user_by_email (toLowerCase e) (db w) = None.
Proof.
  unfold post_admin_users, try_catch. intros H.
  destruct (no_bearer (authorization req)) eqn:Hnb; [discriminate H|].
  destruct (authorization req) as [h|] eqn:Hh; [|discriminate Hnb].
  assert (Hb : startsWith h "Bearer " = true).
  { unfold no_bearer in Hnb. apply orb_false_iff in Hnb.
    destruct Hnb as [_ Hnb]. now apply negb_false_iff in Hnb. }
  destruct (body_email req) as [| |be|be|e|be|be];
    destruct (body_password req) as [| |bp|bp|pw|bp|bp];
    try (revert H; run; intros H; try discriminate H;
         repeat (branch; try discriminate H); fail).
  revert H. run. intros H.
  destruct (jwt_verify (substring_from 7 h) (signing_key (JWT_SECRET w))
                       (hd 0 (clock w))) as [d|] eqn:Hv;
    [|discriminate H].
  simpl in H.
  destruct (hd false (faults w)) eqn:F0; [discriminate H|]. simpl in H.
  destruct (select_user_by_id (Decoded.userId d) (db w)) as [u|] eqn:Hsel;
    [|discriminate H].
  simpl in H.
  destruct (AuthUser.role u =? "admin")%string eqn:Hrole; [|discriminate H].
  simpl in H.
  destruct (e =? "")%string eqn:Te; [discriminate H|]. simpl in H.
  destruct (truthy (body_displayName req)) eqn:Tdn; [|discriminate H].
  destruct (pw =? "")%string eqn:Tp; [discriminate H|].
  simpl in H.
  destruct (hd false (tl (faults w))) eqn:F1; [discriminate H|]. simpl in H.
  destruct (select_user_by_email (toLowerCase e) (db w)) eqn:Hnew;
    [discriminate H|].
  simpl in H.
  destruct (hd false (tl (tl (faults w)))) eqn:F2; [discriminate H|].
  exists u, e, pw.
  unfold present, accepts, is_admin. simpl. rewrite F0, F1, F2.
  repeat split; trivial.
  exists h, d. repeat split; assumption.
Qed.

(** ** Metrics *)

Lemma metrics_succeeds (req : Request) (w : World) (u : AuthUser.t) :
  resolves req w u ->
  accepts 6 w ->
  exists whereClause params,
    (whereClause, params)
    = (if negb (is_admin u)
       then (WhereCreatedBy, [AuthUser.id u]) else (NoWhere, []))
    /\ fst (get_dashboard_metrics req w)
       = mkResponse 200 true None
           (Dashboard
              (Metrics.mk
                 (select_count whereClause params Lead.createdBy (leads (db w)))
                 (select_count whereClause params Account.createdBy (accounts (db w)))
                 (select_count whereClause params Deal.createdBy (active_deals (db w)))
                 (select_count whereClause params Contact.createdBy (contacts (db w))))
              (select_recent_activities whereClause params (db w))
              (AuthUser.role u))
    /\ db (snd (get_dashboard_metrics req w)) = db w.
Proof.
  intros (h & d & Hh & Hb & Hv & Hsel) Hacc.
  unfold get_dashboard_metrics, try_catch. rewrite Hh, (bearer_present _ Hb).
  split_accepts Hacc. run.
  unfold next_instant in Hv. rewrite Hv. simpl.
  rewrite Hacc0. simpl. rewrite Hsel. simpl. fold (is_admin u).
  destruct (negb (is_admin u));
    do 2 eexists; (split; [reflexivity|]);
    run; rewrite Hacc1; simpl; rewrite Hacc2; simpl; rewrite Hacc3; simpl;
    rewrite Hacc4; simpl; rewrite Hacc5; simpl; split; reflexivity.
Qed.

Lemma metrics_success_inv (req : Request) (w : World) :
  status (fst (get_dashboard_metrics req w)) = 200 ->
  exists u, resolves req w u /\ accepts 6 w.
Proof.
  unfold get_dashboard_metrics, try_catch. intros H.
  destruct (no_bearer (authorization req)) eqn:Hnb; [discriminate H|].
  destruct (authorization req) as [h|] eqn:Hh; [|discriminate Hnb].
  assert (Hb : startsWith h "Bearer " = true).
  { unfold no_bearer in Hnb. apply orb_false_iff in Hnb.
    destruct Hnb as [_ Hnb]. now apply negb_false_iff in Hnb. }
  revert H. run. intros H.
  destruct (jwt_verify (substring_from 7 h) (signing_key (JWT_SECRET w))
                       (hd 0 (clock w))) as [d|] eqn:Hv;
    [|discriminate H].
  simpl in H.
  destruct (hd false (faults w)) eqn:F0; [discriminate H|]. simpl in H.
  destruct (select_user_by_id (Decoded.userId d) (db w)) as [u|] eqn:Hsel;
    [|discriminate H].
  exists u. split.
  - exists h, d. repeat split; assumption.
  - unfold accepts. simpl. rewrite F0. simpl.
    destruct (negb (AuthUser.role u =? "admin")%string);
      revert H; run; intros H;
      repeat (branch; try discriminate H); reflexivity.
Qed.

Lemma select_count_covered {A} (u : AuthUser.t) (createdBy : A -> nullable)
    (rows : list A) (whereClause : WhereClause) (params : list string) :
  (whereClause, params)
  = (if negb (is_admin u)
     then (WhereCreatedBy, [AuthUser.id u]) else (NoWhere, [])) ->
  select_count whereClause params createdBy rows
  = Z.of_nat (List.length (covered_by u createdBy rows)).
Proof.
  unfold covered_by, select_count.
  destruct (is_admin u); simpl; intros [= -> ->]; simpl.
  - reflexivity.
  - do 2 f_equal.
Qed.

End Contract.

(* ================================================================= *)
(** ** The contract, claim by claim *)

(** C2. For two successful sign-ins of the same user in sequence, at most
    one row of [auth_sessions] of that user has [isActive] set once the
    second sign-in has completed. *)
Theorem second_signin_leaves_at_most_one_active_session {P : Platform}
    (req1 req2 : Request) (w : World) (user1 user2 : Profile.t) (token1 token2 : string) :
  fst (post_auth_signin req1 w) = signed_in user1 token1 ->
  fst (post_auth_signin req2 (snd (post_auth_signin req1 w))) = signed_in user2 token2 ->
  Profile.id user1 = Profile.id user2 ->
  (List.length
     (active_sessions_of
        (Profile.id user2)
        (db (snd (post_auth_signin req2 (snd (post_auth_signin req1 w))))))
   <= 1)%nat.
Proof.
  intros _ H2 _.
  set (w1 := snd (post_auth_signin req1 w)) in *.
  assert (Hok : status (fst (post_auth_signin req2 w1)) = 200) by now rewrite H2.
  destruct (signin_success_inv _ _ Hok) as (e & pw & u & He & Hp & Hacc & Hsel & Hcmp).
  destruct (signin_succeeds _ _ _ _ _ He Hp Hacc Hsel Hcmp) as (Hresp & Hdb & _).
  rewrite Hresp in H2. injection H2 as Huser _.
  rewrite Hdb, <- Huser. simpl.
  now rewrite one_active_after_signin.
Qed.

Lemma second_signin_leaves_at_most_one_active_session_witness :
  (List.length
     (active_sessions_of
        "u1"
        (db (snd (post_auth_signin (P := Reference.platform)
                    (Sample.credentials "Alice@X.com" "wonderland")
                    (snd (post_auth_signin (P := Reference.platform)
                            (Sample.credentials "alice@x.com" "wonderland")
                            Sample.world))))))
   <= 1)%nat.
Proof.
  apply (second_signin_leaves_at_most_one_active_session
           (P := Reference.platform)
           (Sample.credentials "alice@x.com" "wonderland")
           (Sample.credentials "Alice@X.com" "wonderland")
           Sample.world
           (Profile.of_user Sample.alice)
           (Profile.of_user Sample.alice)
           (issued_token (P := Reference.platform) Sample.alice Sample.world)
           (issued_token (P := Reference.platform) Sample.alice
              (snd (post_auth_signin (P := Reference.platform)
                      (Sample.credentials "alice@x.com" "wonderland")
                      Sample.world))));
    reflexivity.
Defined.

(** C3, as the code has it. A request whose bearer token verification
    rejects is answered 401 by [GET /api/auth/me] only: the other three
    protected endpoints let the exception of [jwt.verify] reach their
    [catch], which answers 500. *)
Theorem rejected_token_status {P : Platform} (req : Request) (w : World) :
  carries_rejected_token req w ->
  fst (get_auth_me req w) = failure 401 "Invalid token"
  /\ fst (get_dashboard_metrics req w) = failure 500 "Failed to fetch metrics"
  /\ fst (post_admin_users req w) = failure 500 "Failed to create user"
  /\ fst (get_admin_users req w) = failure 500 "Failed to fetch users".
Proof.
  intros H. repeat split.
  - now apply me_rejects_token.
  - now apply metrics_rejects_token.
  - now apply create_user_rejects_token.
  - now apply list_users_rejects_token.
Qed.

Lemma rejected_token_status_witness :
  fst (get_auth_me (P := Reference.platform) (Sample.bearer "garbage") Sample.world)
  = failure 401 "Invalid token"
  /\ fst (get_dashboard_metrics (P := Reference.platform) (Sample.bearer "garbage") Sample.world)
     = failure 500 "Failed to fetch metrics"
  /\ fst (post_admin_users (P := Reference.platform) (Sample.bearer "garbage") Sample.world)
     = failure 500 "Failed to create user"
  /\ fst (get_admin_users (P := Reference.platform) (Sample.bearer "garbage") Sample.world)
     = failure 500 "Failed to fetch users".
Proof.
  apply (rejected_token_status (P := Reference.platform)
           (Sample.bearer "garbage") Sample.world).
  exists "Bearer garbage". repeat split.
Defined.

(** C6. A request to [POST /api/admin/users] whose token resolves to a user
    who is not an admin is answered 403, and the store is left as it was,
    whatever the request body. *)
Theorem non_admin_cannot_create_user {P : Platform}
    (req : Request) (w : World) (u : AuthUser.t) :
  resolves req w u ->
  accepts 1 w ->
  is_admin u = false ->
  status (fst (post_admin_users req w)) = 403
  /\ fst (post_admin_users req w) = failure 403 "Admin access required"
  /\ db (snd (post_admin_users req w)) = db w.
Proof.
  intros Hres Hacc Hrole.
  destruct (create_user_forbidden _ _ _ Hres Hacc Hrole) as [Hresp Hdb].
  rewrite Hresp. repeat split. exact Hdb.
Qed.

Lemma non_admin_cannot_create_user_witness :
  let req := Sample.new_user (Sample.token_of Sample.alice) "eve@x.com" "Eve" "secret" in
  status (fst (post_admin_users (P := Reference.platform) req Sample.world)) = 403
  /\ fst (post_admin_users (P := Reference.platform) req Sample.world)
     = failure 403 "Admin access required"
  /\ db (snd (post_admin_users (P := Reference.platform) req Sample.world))
     = db Sample.world.
Proof.
  apply (non_admin_cannot_create_user (P := Reference.platform)
           (Sample.new_user (Sample.token_of Sample.alice) "eve@x.com" "Eve" "secret")
           Sample.world Sample.alice).
  - eexists. eexists. repeat split; reflexivity.
  - reflexivity.
  - reflexivity.
Defined.

(** C7, as the code has it. A sign-in whose email matches a stored user is
    answered 401 "Invalid credentials" when its password is a string the
    stored hash does not match, but 500 "Internal server error" when its
    password is a truthy value that is not a string: bcrypt rejects it and
    the exception reaches the [catch].  The store is left as it was in both
    cases. *)
Theorem wrong_password_status {P : Platform}
    (req : Request) (w : World) (e : string) (u : AuthUser.t) :
  present (body_email req) e ->
  accepts 1 w ->
  select_user_by_email (toLowerCase e) (db w) = Some u ->
  (forall pw,
      present (body_password req) pw ->
      bcrypt_compare pw (AuthUser.passwordHash u) = false ->
      fst (post_auth_signin req w) = failure 401 "Invalid credentials"
      /\ db (snd (post_auth_signin req w)) = db w)
  /\ (truthy (body_password req) = true ->
      is_string (body_password req) = false ->
      fst (post_auth_signin req w) = failure 500 "Internal server error"
      /\ db (snd (post_auth_signin req w)) = db w).
Proof.
  intros He Hacc Hsel. split.
  - intros pw Hp Hcmp.
    exact (signin_rejects_mismatch _ _ _ _ _ He Hp Hacc Hsel Hcmp).
  - intros Hp Hstr.
    exact (signin_rejects_non_string_password _ _ _ _ He Hp Hstr Hacc Hsel).
Qed.

(** The number 12345 as the password of the sample user. *)
Lemma wrong_password_status_witness :
  let req := mkRequest None (JString "alice@x.com") JUndefined
                       (JNumber 4668012349850910720) JUndefined "10.0.0.2" None in
  fst (post_auth_signin (P := Reference.platform) req Sample.world)
  = failure 500 "Internal server error"
  /\ db (snd (post_auth_signin (P := Reference.platform) req Sample.world))
     = db Sample.world.
Proof.
  apply (wrong_password_status (P := Reference.platform)
           (mkRequest None (JString "alice@x.com") JUndefined
                      (JNumber 4668012349850910720) JUndefined "10.0.0.2" None)
           Sample.world "alice@x.com" Sample.alice).
  - split; reflexivity.
  - reflexivity.
  - reflexivity.
  - reflexivity.
  - reflexivity.
Defined.

(** C8, as the code has it. A sign-in with an email that matches no stored
    user is answered 401 "Invalid credentials" whatever its password.  A
    sign-in with a matching email gets the same response when its password
    is a string that does not match, but the 500 "Internal server error"
    when its password is a truthy value that is not a string: with such a
    password the two responses differ, and tell whether the email is
    stored. *)
Theorem signin_failures_differ_on_non_string_password {P : Platform}
    (req1 req2 : Request) (w1 w2 : World) (e1 e2 : string) (u : AuthUser.t) :
  present (body_email req1) e1 ->
  truthy (body_password req1) = true ->
  accepts 1 w1 ->
  select_user_by_email (toLowerCase e1) (db w1) = None ->
  present (body_email req2) e2 ->
  accepts 1 w2 ->
  select_user_by_email (toLowerCase e2) (db w2) = Some u ->
  fst (post_auth_signin req1 w1) = failure 401 "Invalid credentials"
  /\ (forall pw2,
        present (body_password req2) pw2 ->
        bcrypt_compare pw2 (AuthUser.passwordHash u) = false ->
        fst (post_auth_signin req2 w2) = fst (post_auth_signin req1 w1))
  /\ (truthy (body_password req2) = true ->
      is_string (body_password req2) = false ->
      fst (post_auth_signin req2 w2) = failure 500 "Internal server error"
      /\ fst (post_auth_signin req2 w2) <> fst (post_auth_signin req1 w1)).
Proof.
  intros He1 Hp1 Hacc1 Hsel1 He2 Hacc2 Hsel2.
  destruct (signin_rejects_unknown _ _ _ He1 Hp1 Hacc1 Hsel1) as [Hunknown _].
  rewrite Hunknown. split; [reflexivity|]. split.
  - intros pw2 Hp2 Hcmp2.
    now destruct (signin_rejects_mismatch _ _ _ _ _ He2 Hp2 Hacc2 Hsel2 Hcmp2) as [-> _].
  - intros Hp2 Hstr2.
    destruct (signin_rejects_non_string_password _ _ _ _ He2 Hp2 Hstr2 Hacc2 Hsel2)
      as [-> _].
    split; [reflexivity | discriminate].
Qed.

(** The number 12345 as the password, with an email that is not stored and
    with the email of the sample user. *)
Lemma signin_failures_differ_on_non_string_password_witness :
  let probe email := mkRequest None (JString email) JUndefined
                               (JNumber 4668012349850910720) JUndefined
                               "10.0.0.2" None in
  fst (post_auth_signin (P := Reference.platform) (probe "nobody@x.com") Sample.world)
  = failure 401 "Invalid credentials"
  /\ fst (post_auth_signin (P := Reference.platform) (probe "alice@x.com") Sample.world)
     = failure 500 "Internal server error"
  /\ fst (post_auth_signin (P := Reference.platform) (probe "alice@x.com") Sample.world)
     <> fst (post_auth_signin (P := Reference.platform) (probe "nobody@x.com")
                              Sample.world).
Proof.
  destruct (signin_failures_differ_on_non_string_password (P := Reference.platform)
              (mkRequest None (JString "nobody@x.com") JUndefined
                         (JNumber 4668012349850910720) JUndefined "10.0.0.2" None)
              (mkRequest None (JString "alice@x.com") JUndefined
                         (JNumber 4668012349850910720) JUndefined "10.0.0.2" None)
              Sample.world Sample.world "nobody@x.com" "alice@x.com" Sample.alice)
    as (Hunknown & _ & Hstored).
  - split; reflexivity.
  - reflexivity.
  - reflexivity.
  - reflexivity.
  - split; reflexivity.
  - reflexivity.
  - reflexivity.
  - split; [exact Hunknown|]. apply Hstored; reflexivity.
Defined.

(** C10. Sign-in is not atomic: with valid credentials, when the store
    rejects the insertion of the session row, the response is the 500
    "Internal server error" and carries no token, while the deactivation of
    the user's sessions stays applied, so that the user is left without any
    active session. *)
Theorem signin_not_atomic_on_insert_failure {P : Platform}
    (req : Request) (w : World) (e pw : string) (u : AuthUser.t) :
  present (body_email req) e ->
  present (body_password req) pw ->
  select_user_by_email (toLowerCase e) (db w) = Some u ->
  bcrypt_compare pw (AuthUser.passwordHash u) = true ->
  rejects_after 2 w ->
  fst (post_auth_signin req w) = failure 500 "Internal server error"
  /\ payload (fst (post_auth_signin req w)) = NoPayload
  /\ db (snd (post_auth_signin req w)) = deactivate_sessions (AuthUser.id u) (db w)
  /\ active_sessions_of (AuthUser.id u) (db (snd (post_auth_signin req w))) = [].
Proof.
  intros He Hp Hsel Hcmp Hrej.
  destruct (signin_insert_rejected _ _ _ _ _ He Hp Hrej Hsel Hcmp) as [Hresp Hdb].
  rewrite Hresp, Hdb. repeat split.
  apply no_active_after_deactivate.
Qed.

Lemma signin_not_atomic_on_insert_failure_witness :
  let req := Sample.credentials "alice@x.com" "wonderland" in
  let w := mkWorld Sample.store [1000; 2000; 3000; 4000] [false; false; true]
                   ["0.abcdefghijklmn"] None in
  active_sessions_of "u1" (db w) <> []
  /\ fst (post_auth_signin (P := Reference.platform) req w)
     = failure 500 "Internal server error"
  /\ payload (fst (post_auth_signin (P := Reference.platform) req w)) = NoPayload
  /\ db (snd (post_auth_signin (P := Reference.platform) req w))
     = deactivate_sessions "u1" (db w)
  /\ active_sessions_of "u1" (db (snd (post_auth_signin (P := Reference.platform) req w)))
     = [].
Proof.
  split; [discriminate|].
  apply (signin_not_atomic_on_insert_failure (P := Reference.platform)
           (Sample.credentials "alice@x.com" "wonderland")
           (mkWorld Sample.store [1000; 2000; 3000; 4000] [false; false; true]
                    ["0.abcdefghijklmn"] None)
           "alice@x.com" "wonderland" Sample.alice).
  - split; reflexivity.
  - split; reflexivity.
  - reflexivity.
  - reflexivity.
  - split; reflexivity.
Defined.

(** C1. For every user whose credentials the request presents (the user
    the lower-cased email selects, with a password its hash matches), a
    successful sign-in returns the profile of that user and a token that
    verification accepts (under the signing key, at every instant before
    the token expires, 24 hours after the second of signing); the token
    carries the id, email and role of that user, and its [userId] claim,
    presented to [GET /api/auth/me], resolves to that same user: same id,
    email, role and display name.  The identifiers of [auth_users] are
    taken to be unique, and jsonwebtoken to verify what it signed. *)
Theorem signin_token_resolves_same_user {P : Platform}
    (req : Request) (w : World) (e pw : string) (u : AuthUser.t) :
  jwt_faithful P ->
  NoDup (map AuthUser.id (auth_users (db w))) ->
  present (body_email req) e ->
  present (body_password req) pw ->
  select_user_by_email (toLowerCase e) (db w) = Some u ->
  bcrypt_compare pw (AuthUser.passwordHash u) = true ->
  status (fst (post_auth_signin req w)) = 200 ->
  exists token decoded,
    fst (post_auth_signin req w) = signed_in (Profile.of_user u) token
    /\ Decoded.payload decoded
       = TokenData.mk (AuthUser.id u) (AuthUser.email u) (AuthUser.role u)
                      (nth 0 (clock w) 0)
    /\ Decoded.userId decoded = AuthUser.id u
    /\ Decoded.iat decoded = nth 1 (clock w) 0 / 1000
    /\ Decoded.exp decoded = Decoded.iat decoded + expiresIn_24h
    /\ (forall t,
          t / 1000 < Decoded.exp decoded ->
          jwt_verify token (signing_key (JWT_SECRET w)) t = Some decoded)
    /\ (forall req' w',
          authorization req' = Some ("Bearer " ++ token) ->
          db w' = db (snd (post_auth_signin req w)) ->
          JWT_SECRET w' = JWT_SECRET w ->
          accepts 1 w' ->
          next_instant w' / 1000 < Decoded.exp decoded ->
          fst (get_auth_me req' w')
          = mkResponse 200 true None (CurrentUser (Profile.of_user u))).
Proof.
  intros Hjwt Hnd He Hp Hsel Hcmp Hok.
  destruct (signin_success_inv _ _ Hok) as (e0 & pw0 & u0 & _ & _ & Hacc & _).
  destruct (signin_succeeds _ _ _ _ _ He Hp Hacc Hsel Hcmp) as (Hresp & Hdb & _).
  exists (issued_token u w).
  exists (Decoded.mk (TokenData.mk (AuthUser.id u) (AuthUser.email u) (AuthUser.role u)
                                   (nth 0 (clock w) 0))
                     (nth 1 (clock w) 0 / 1000)
                     (nth 1 (clock w) 0 / 1000 + expiresIn_24h)).
  split; [exact Hresp|].
  split; [reflexivity|].
  split; [reflexivity|].
  split; [reflexivity|].
  split; [reflexivity|].
  split.
  - intros t Ht. apply Hjwt. exact Ht.
  - intros req' w' Hauth Hdb' Hkey Hacc' Hlive.
    set (u' := AuthUser.set_lastLogin (toISOString (nth 4 (clock w) 0)) u).
    assert (Hres : resolves req' w' u').
    { eexists. eexists.
      split; [exact Hauth|].
      split; [apply bearer_startsWith|].
      split.
      - rewrite Hkey. apply Hjwt. exact Hlive.
      - rewrite Hdb', Hdb, select_by_id_after_signin.
        unfold select_user_by_id, Decoded.userId. simpl.
        rewrite (find_unique_id _ u Hnd).
        + simpl. now rewrite String.eqb_refl.
        + apply find_some in Hsel. apply Hsel. }
    destruct (me_resolves _ _ _ Hres Hacc') as [Hme _].
    exact Hme.
Qed.

Lemma signin_token_resolves_same_user_witness :
  let req := Sample.credentials "Alice@X.com" "wonderland" in
  let w := Sample.world in
  let u := Sample.alice in
  exists token decoded,
    fst (post_auth_signin (P := Reference.platform) req w)
    = signed_in (Profile.of_user u) token
    /\ Decoded.payload decoded
       = TokenData.mk (AuthUser.id u) (AuthUser.email u) (AuthUser.role u)
                      (nth 0 (clock w) 0)
    /\ Decoded.userId decoded = AuthUser.id u
    /\ Decoded.iat decoded = nth 1 (clock w) 0 / 1000
    /\ Decoded.exp decoded = Decoded.iat decoded + expiresIn_24h
    /\ (forall t,
          t / 1000 < Decoded.exp decoded ->
          jwt_verify (Platform := Reference.platform) token
                     (signing_key (JWT_SECRET w)) t = Some decoded)
    /\ (forall req' w',
          authorization req' = Some ("Bearer " ++ token) ->
          db w' = db (snd (post_auth_signin (P := Reference.platform) req w)) ->
          JWT_SECRET w' = JWT_SECRET w ->
          accepts 1 w' ->
          next_instant w' / 1000 < Decoded.exp decoded ->
          fst (get_auth_me (P := Reference.platform) req' w')
          = mkResponse 200 true None (CurrentUser (Profile.of_user u))).
Proof.
  apply (signin_token_resolves_same_user (P := Reference.platform)
           (Sample.credentials "Alice@X.com" "wonderland") Sample.world
           "Alice@X.com" "wonderland" Sample.alice).
  - exact reference_jwt_faithful.
  - simpl. repeat constructor; simpl; intuition discriminate.
  - split; reflexivity.
  - split; reflexivity.
  - reflexivity.
  - reflexivity.
  - reflexivity.
Defined.

(** The profile sign-in answered with is the one [GET /api/auth/me] answers
    with, on the sample data. *)
Example alice_signs_in_and_asks_who_she_is :
  let signin := post_auth_signin (P := Reference.platform)
                  (Sample.credentials "Alice@X.com" "wonderland") Sample.world in
  let token := issued_token (P := Reference.platform) Sample.alice Sample.world in
  fst signin = signed_in (Profile.of_user Sample.alice) token
  /\ fst (get_auth_me (P := Reference.platform) (Sample.bearer token) (snd signin))
     = mkResponse 200 true None (CurrentUser (Profile.of_user Sample.alice)).
Proof. split; reflexivity. Qed.

(** The row a successful [POST /api/admin/users] stores, and its answer. *)
Lemma create_user_stores_row {P : Platform} (req : Request) (w : World) (u : AuthUser.t)
    (e pw : string) :
  resolves req w u ->
  is_admin u = true ->
  present (body_email req) e ->
  truthy (body_displayName req) = true ->
  present (body_password req) pw ->
  accepts 3 w ->
  select_user_by_email (toLowerCase e) (db w) = None ->
  exists row salt,
    AuthUser.email row = toLowerCase e
    /\ AuthUser.passwordHash row = bcrypt_hash pw 10 salt
    /\ (exists created,
          fst (post_admin_users req w)
          = mkResponse 200 true (Some "User created successfully") (CreatedUser created)
          /\ NewUser.displayName created = body_displayName req
          /\ NewUser.role created = with_default "user" (body_role req)
          /\ Profile.of_user row = stored_profile created)
    /\ db (snd (post_admin_users req w))
       = with_users (auth_users (db w) ++ [row]) (db w).
Proof.
  intros (h & d & Hh & Hb & Hv & Hsel) Hrole He Hdn Hp Hacc Hnew.
  unfold post_admin_users, try_catch. rewrite Hh, (bearer_present _ Hb).
  rewrite (truthy_present _ _ He), Hdn, (truthy_present _ _ Hp).
  destruct He as [-> _], Hp as [-> _].
  split_accepts Hacc. run.
  unfold next_instant in Hv. rewrite Hv. simpl.
  rewrite Hacc0. simpl. rewrite Hsel. simpl.
  unfold is_admin in Hrole. rewrite Hrole. simpl.
  rewrite Hacc1. simpl. rewrite Hnew. simpl.
  rewrite Hacc2. simpl.
  eexists. eexists. refine (conj _ (conj _ (conj _ _))).
  4: reflexivity.
  1, 2: reflexivity.
  eexists. repeat split.
Qed.





(** Two creations in sequence: the second is refused when its email
    lower-cases to the same text as the email of the first. *)
Lemma second_create_with_same_lower_case_rejected {P : Platform}
    (req1 req2 : Request) (w w2 : World) (admin : AuthUser.t) (e1 e2 : string) :
  status (fst (post_admin_users req1 w)) = 200 ->
  body_email req1 = JString e1 ->
  db w2 = db (snd (post_admin_users req1 w)) ->
  resolves req2 w2 admin ->
  is_admin admin = true ->
  present (body_email req2) e2 ->
  truthy (body_displayName req2) = true ->
  truthy (body_password req2) = true ->
  toLowerCase e2 = toLowerCase e1 ->
  accepts 2 w2 ->
  fst (post_admin_users req2 w2) = failure 400 "User already exists"
  /\ db (snd (post_admin_users req2 w2)) = db w2.
Proof.
  intros Hok He1 Hdb2 Hres Hadmin He2 Hdn Hp Hlow Hacc.
  destruct (create_user_success_inv _ _ Hok)
    as (u1 & e & pw1 & Hres1 & Hadmin1 & He & Hdn1 & Hp1 & Hacc1 & Hnew1).
  assert (e = e1) as -> by (destruct He as [He _]; congruence).
  destruct (create_user_stores_row _ _ _ _ _ Hres1 Hadmin1 He Hdn1 Hp1 Hacc1 Hnew1)
    as (row & salt & Hemail & _ & _ & Hdb1).
  destruct (find_last _ (fun x => (AuthUser.email x =? toLowerCase e2)%string)
                      (auth_users (db w)) row) as [x Hx].
  { rewrite Hemail, Hlow. apply String.eqb_refl. }
  assert (Hdup : select_user_by_email (toLowerCase e2) (db w2) = Some x).
  { unfold select_user_by_email. rewrite Hdb2, Hdb1. exact Hx. }
  exact (create_user_duplicate _ _ _ _ _ Hres Hadmin He2 Hdn Hp Hacc Hdup).
Qed.

(** The entries of the feed come from the rows the three selects return. *)
Lemma recent_activities_origin (whereClause : WhereClause) (params : list string)
    (s : Store) (a : Activity.t) :
  In a (select_recent_activities whereClause params s) ->
  (exists r, In r (select_where whereClause (bound params 0) Lead.createdBy (leads s))
             /\ a = lead_activity r)
  \/ (exists r, In r (select_where whereClause (bound params 1) Account.createdBy (accounts s))
                /\ a = account_activity r)
  \/ (exists r, In r (select_where whereClause (bound params 2) Deal.createdBy (active_deals s))
                /\ a = deal_activity r).
Proof.
  unfold select_recent_activities, union_all_activities. intros Hin.
  apply firstn_incl, order_by_desc_In in Hin.
  apply in_app_or in Hin. destruct Hin as [Hin|Hin].
  - left. apply in_map_iff in Hin. destruct Hin as (r & <- & Hr). now exists r.
  - apply in_app_or in Hin. destruct Hin as [Hin|Hin].
    + right. left. apply in_map_iff in Hin. destruct Hin as (r & <- & Hr). now exists r.
    + right. right. apply in_map_iff in Hin. destruct Hin as (r & <- & Hr). now exists r.
Qed.

(** With the one parameter a non-admin request binds, the second and third
    placeholders of the feed stay unbound, so the feed of a non-admin holds
    leads only. *)
Lemma scoped_feed_holds_leads_only (uid : string) (s : Store) (a : Activity.t) :
  In a (select_recent_activities WhereCreatedBy [uid] s) ->
  exists r, In r (leads s) /\ Lead.createdBy r = Some uid /\ a = lead_activity r.
Proof.
  intros Hin. apply recent_activities_origin in Hin. simpl in Hin.
  destruct Hin as [(r & Hr & ->)|[(r & Hr & ->)|(r & Hr & ->)]];
    apply filter_In in Hr; destruct Hr as [Hr Heq].
  - exists r. repeat split; trivial.
    rewrite sql_eq_created_by in Heq. now apply created_by_iff.
  - now rewrite sql_eq_unbound in Heq.
  - now rewrite sql_eq_unbound in Heq.
Qed.

(** C4. A request to [GET /api/dashboard/metrics] that resolves to the user
    [u] is answered with four counts and a feed.  If [u] is not an admin,
    each count is the number of rows of its table whose [createdBy] is the
    id of [u], and every entry of the feed comes from a row [u] created; if
    [u] is an admin, each count is the number of all rows of its table. *)
Theorem metrics_scoped_by_role {P : Platform} (req : Request) (w : World) (u : AuthUser.t) :
  resolves req w u ->
  accepts 6 w ->
  exists m acts,
    fst (get_dashboard_metrics req w)
    = mkResponse 200 true None (Dashboard m acts (AuthUser.role u))
    /\ (is_admin u = false ->
        Metrics.leads m = owned_count Lead.createdBy (AuthUser.id u) (leads (db w))
        /\ Metrics.accounts m
           = owned_count Account.createdBy (AuthUser.id u) (accounts (db w))
        /\ Metrics.deals m
           = owned_count Deal.createdBy (AuthUser.id u) (active_deals (db w))
        /\ Metrics.contacts m
           = owned_count Contact.createdBy (AuthUser.id u) (contacts (db w))
        /\ Forall (owned_activity (AuthUser.id u) (db w)) acts)
    /\ (is_admin u = true ->
        Metrics.leads m = Z.of_nat (List.length (leads (db w)))
        /\ Metrics.accounts m = Z.of_nat (List.length (accounts (db w)))
        /\ Metrics.deals m = Z.of_nat (List.length (active_deals (db w)))
        /\ Metrics.contacts m = Z.of_nat (List.length (contacts (db w)))).
Proof.
  intros Hres Hacc.
  destruct (metrics_succeeds _ _ _ Hres Hacc) as (wc & params & Hscope & Hresp & _).
  do 2 eexists. split; [exact Hresp|].
  split; intros Hrole; rewrite Hrole in Hscope; simpl in Hscope;
    injection Hscope as -> ->; simpl.
  - repeat split.
    apply Forall_forall. intros a Hin.
    apply scoped_feed_holds_leads_only in Hin.
    left. exact Hin.
  - repeat split.
Qed.

Lemma metrics_scoped_by_role_witness :
  let req := Sample.bearer (Sample.token_of Sample.alice) in
  let u := Sample.alice in
  let s := db Sample.world in
  exists m acts,
    fst (get_dashboard_metrics (P := Reference.platform) req Sample.world)
    = mkResponse 200 true None (Dashboard m acts (AuthUser.role u))
    /\ (is_admin u = false ->
        Metrics.leads m = owned_count Lead.createdBy (AuthUser.id u) (leads s)
        /\ Metrics.accounts m = owned_count Account.createdBy (AuthUser.id u) (accounts s)
        /\ Metrics.deals m = owned_count Deal.createdBy (AuthUser.id u) (active_deals s)
        /\ Metrics.contacts m = owned_count Contact.createdBy (AuthUser.id u) (contacts s)
        /\ Forall (owned_activity (AuthUser.id u) s) acts)
    /\ (is_admin u = true ->
        Metrics.leads m = Z.of_nat (List.length (leads s))
        /\ Metrics.accounts m = Z.of_nat (List.length (accounts s))
        /\ Metrics.deals m = Z.of_nat (List.length (active_deals s))
        /\ Metrics.contacts m = Z.of_nat (List.length (contacts s))).
Proof.
  apply (metrics_scoped_by_role (P := Reference.platform)
           (Sample.bearer (Sample.token_of Sample.alice)) Sample.world Sample.alice).
  - eexists. eexists. repeat split; reflexivity.
  - reflexivity.
Defined.

(** The dashboard of the sample user and of the sample admin. *)
Example dashboard_of_alice :
  fst (get_dashboard_metrics (P := Reference.platform)
         (Sample.bearer (Sample.token_of Sample.alice)) Sample.world)
  = mkResponse 200 true None
      (Dashboard (Metrics.mk 1 1 1 1)
                 [Activity.mk "lead" "Ann Lee" "new" "2024-02-02"]
                 "user").
Proof. reflexivity. Qed.

Example dashboard_of_root :
  fst (get_dashboard_metrics (P := Reference.platform)
         (Sample.bearer (Sample.token_of Sample.root)) Sample.world)
  = mkResponse 200 true None
      (Dashboard (Metrics.mk 2 1 1 2)
                 [Activity.mk "lead" "Bo Chen" "won" "2024-02-05";
                  Activity.mk "deal" "Big" "won" "2024-02-04";
                  Activity.mk "account" "Acme" "open" "2024-02-03";
                  Activity.mk "lead" "Ann Lee" "new" "2024-02-02"]
                 "admin").
Proof. reflexivity. Qed.

(** C9. In every successful response of [GET /api/dashboard/metrics] each
    entry of [recentActivities] has the type [lead], [account] or [deal],
    never [contact], although the contacts the dashboard covers are counted
    in [metrics.contacts]; the feed has at most 10 entries, in descending
    order of [createdAt]. *)
Theorem recent_activities_shape {P : Platform}
    (req : Request) (w : World) (m : Metrics.t) (acts : list Activity.t) (role : string) :
  status (fst (get_dashboard_metrics req w)) = 200 ->
  payload (fst (get_dashboard_metrics req w)) = Dashboard m acts role ->
  Forall feed_type acts
  /\ (forall a, In a acts -> Activity.type a <> "contact")
  /\ (List.length acts <= 10)%nat
  /\ StronglySorted (desc Activity.createdAt) acts
  /\ exists u,
       resolves req w u
       /\ Metrics.contacts m
          = Z.of_nat (List.length (covered_by u Contact.createdBy (contacts (db w)))).
Proof.
  intros Hok Hpayload.
  destruct (metrics_success_inv _ _ Hok) as (u & Hres & Hacc).
  destruct (metrics_succeeds _ _ _ Hres Hacc) as (wc & params & Hscope & Hresp & _).
  rewrite Hresp in Hpayload. simpl in Hpayload.
  injection Hpayload as <- <- _.
  assert (Htypes : forall a, In a (select_recent_activities wc params (db w)) ->
                             feed_type a).
  { intros a Hin. apply recent_activities_origin in Hin. unfold feed_type.
    destruct Hin as [(r & _ & ->)|[(r & _ & ->)|(r & _ & ->)]]; simpl; auto. }
  split; [now apply Forall_forall|].
  split.
  { intros a Hin. destruct (Htypes a Hin) as [E|[E|E]]; rewrite E; discriminate. }
  split; [apply firstn_le_length|].
  split; [apply limit_order_by_desc_sorted|].
  exists u. split; [exact Hres|].
  simpl. now apply select_count_covered.
Qed.

Lemma recent_activities_shape_witness :
  let acts := [Activity.mk "lead" "Bo Chen" "won" "2024-02-05";
               Activity.mk "deal" "Big" "won" "2024-02-04";
               Activity.mk "account" "Acme" "open" "2024-02-03";
               Activity.mk "lead" "Ann Lee" "new" "2024-02-02"] in
  Forall feed_type acts
  /\ (forall a, In a acts -> Activity.type a <> "contact")
  /\ (List.length acts <= 10)%nat
  /\ StronglySorted (desc Activity.createdAt) acts
  /\ exists u,
       resolves (P := Reference.platform)
                (Sample.bearer (Sample.token_of Sample.root)) Sample.world u
       /\ 2 = Z.of_nat (List.length (covered_by u Contact.createdBy
                                                (contacts (db Sample.world)))).
Proof.
  apply (recent_activities_shape (P := Reference.platform)
           (Sample.bearer (Sample.token_of Sample.root)) Sample.world
           (Metrics.mk 2 1 1 2) _ "admin").
  - reflexivity.
  - reflexivity.
Defined.


(* ================================================================= *)
(** ** Further properties of the handlers *)

(** The reference platform keeps the other two promises of the libraries. *)

Lemma reference_jwt_expiring : jwt_expiring Reference.platform.
Proof.
  intros p k ttl t t' Hlate. simpl.
  unfold Reference.verify, Reference.sign.
  rewrite !get_put, !get_put_number.
  apply Z.ltb_ge in Hlate. rewrite Hlate.
  now rewrite andb_false_r.
Qed.

Lemma reference_bcrypt_faithful : bcrypt_faithful Reference.platform.
Proof.
  intros data rounds salt. simpl.
  unfold Reference.compare, Reference.hash.
  rewrite get_put. apply String.eqb_refl.
Qed.

(** Case analysis on the next test the goal is stuck on. *)
Ltac branch_goal :=
  match goal with
  | |- context [match ?x with _ => _ end] =>
      lazymatch x with
      | context [match _ with _ => _ end] => fail
      | _ => destruct x eqn:?; simpl
      end
  end.

(** X1. A sign-in whose email or password is falsy (absent, [null], [false],
    [0] or empty)
    is answered 400 "Email and password are required" before anything else
    happens: the store is not called, the clock is not read. *)
Theorem signin_requires_both_fields {P : Platform} (req : Request) (w : World) :
  truthy (body_email req) = false \/ truthy (body_password req) = false ->
  post_auth_signin req w = (failure 400 "Email and password are required", w).
Proof.
  intros H. unfold post_auth_signin, try_catch.
  assert (Hguard : (negb (truthy (body_email req))
                    || negb (truthy (body_password req)))%bool = true).
  { destruct H as [-> | ->]; simpl; [reflexivity | apply orb_true_r]. }
  now rewrite Hguard.
Qed.

Lemma signin_requires_both_fields_witness :
  post_auth_signin (P := Reference.platform)
    (mkRequest None (JString "alice@x.com") JUndefined (JString "") JUndefined
               "10.0.0.2" None)
    Sample.world
  = (failure 400 "Email and password are required", Sample.world).
Proof.
  apply (signin_requires_both_fields (P := Reference.platform)).
  right. reflexivity.
Defined.

(** X2. Sign-in reads a non-empty email through [toLowerCase] only: two
    requests whose emails lower-case to the same text, and which agree on
    the password, the address and the user agent, have the same outcome,
    response and world. *)
Theorem signin_reads_email_lower_cased {P : Platform}
    (req1 req2 : Request) (w : World) (e1 e2 : string) :
  present (body_email req1) e1 ->
  present (body_email req2) e2 ->
  toLowerCase e1 = toLowerCase e2 ->
  body_password req1 = body_password req2 ->
  ip req1 = ip req2 ->
  user_agent req1 = user_agent req2 ->
  post_auth_signin req1 w = post_auth_signin req2 w.
Proof.
  intros He1 He2 Hlow Hpw Hip Hua.
  unfold post_auth_signin.
  rewrite (truthy_present _ _ He1), (truthy_present _ _ He2).
  destruct He1 as [-> _], He2 as [-> _].
  rewrite Hpw, Hip, Hua.
  unfold try_catch. run.
  now rewrite Hlow.
Qed.

Lemma signin_reads_email_lower_cased_witness :
  post_auth_signin (P := Reference.platform)
    (Sample.credentials "ALICE@x.com" "wonderland") Sample.world
  = post_auth_signin (P := Reference.platform)
      (Sample.credentials "alice@X.COM" "wonderland") Sample.world.
Proof.
  apply (signin_reads_email_lower_cased (P := Reference.platform)
           (Sample.credentials "ALICE@x.com" "wonderland")
           (Sample.credentials "alice@X.COM" "wonderland")
           Sample.world "ALICE@x.com" "alice@X.COM");
    try reflexivity; split; reflexivity.
Defined.

(** X3. Only users whose stored email is in lower case can sign in: the
    email of the profile a successful sign-in returns is its own lower-case
    form. *)
Theorem signed_in_email_is_lower_case {P : Platform}
    (req : Request) (w : World) (user : Profile.t) (token : string) :
  fst (post_auth_signin req w) = signed_in user token ->
  toLowerCase (Profile.email user) = Profile.email user.
Proof.
  intros H.
  assert (Hok : status (fst (post_auth_signin req w)) = 200) by now rewrite H.
  destruct (signin_success_inv _ _ Hok) as (e & pw & u & He & Hp & Hacc & Hsel & Hcmp).
  destruct (signin_succeeds _ _ _ _ _ He Hp Hacc Hsel Hcmp) as (Hresp & _).
  rewrite Hresp in H. injection H as <- _. simpl.
  apply find_some in Hsel. destruct Hsel as [_ Heq].
  apply String.eqb_eq in Heq. rewrite Heq.
  apply toLowerCase_idempotent.
Qed.

Lemma signed_in_email_is_lower_case_witness :
  toLowerCase (Platform := Reference.platform) "alice@x.com" = "alice@x.com".
Proof.
  apply (signed_in_email_is_lower_case (P := Reference.platform)
           (Sample.credentials "Alice@X.com" "wonderland") Sample.world
           (Profile.of_user Sample.alice)
           (issued_token (P := Reference.platform) Sample.alice Sample.world)).
  reflexivity.
Defined.

(** X4. A sign-in answered 400 or 401 has left the store as it was, whatever
    the request and the world. *)
Theorem rejected_signin_leaves_store {P : Platform} (req : Request) (w : World) :
  status (fst (post_auth_signin req w)) = 400
  \/ status (fst (post_auth_signin req w)) = 401 ->
  db (snd (post_auth_signin req w)) = db w.
Proof.
  unfold post_auth_signin, try_catch. run.
  repeat branch_goal;
    intros [H|H]; try discriminate H; reflexivity.
Qed.

Lemma rejected_signin_leaves_store_witness :
  db (snd (post_auth_signin (P := Reference.platform)
             (Sample.credentials "nobody@x.com" "wonderland") Sample.world))
  = db Sample.world.
Proof.
  apply (rejected_signin_leaves_store (P := Reference.platform)).
  right. reflexivity.
Defined.

(** X5. The three reading endpoints never write: whatever the request and
    the world, and whatever they answer, the store after [GET /api/auth/me],
    [GET /api/dashboard/metrics] and [GET /api/admin/users] is the store
    before. *)
Theorem reading_endpoints_never_write {P : Platform} (req : Request) (w : World) :
  db (snd (get_auth_me req w)) = db w
  /\ db (snd (get_dashboard_metrics req w)) = db w
  /\ db (snd (get_admin_users req w)) = db w.
Proof.
  repeat split.
  - unfold get_auth_me, try_catch. run. repeat branch_goal; reflexivity.
  - unfold get_dashboard_metrics, try_catch. run. repeat branch_goal; reflexivity.
  - unfold get_admin_users, try_catch. run. repeat branch_goal; reflexivity.
Qed.

(** X6. A request without an [Authorization] header, or with one that does
    not start with [Bearer ] (the scheme is matched with its case), is
    answered 401 by each of the four protected endpoints before the token is
    verified or the store called. *)
Theorem missing_bearer_is_unauthenticated {P : Platform} (req : Request) (w : World) :
  no_bearer (authorization req) = true ->
  get_auth_me req w = (failure 401 "No token provided", w)
  /\ get_dashboard_metrics req w = (failure 401 "Authentication required", w)
  /\ post_admin_users req w = (failure 401 "Authentication required", w)
  /\ get_admin_users req w = (failure 401 "Authentication required", w).
Proof.
  intros H.
  unfold get_auth_me, get_dashboard_metrics, post_admin_users, get_admin_users, try_catch.
  rewrite H. repeat split.
Qed.

Lemma missing_bearer_is_unauthenticated_witness :
  let req := mkRequest (Some ("bearer " ++ Sample.token_of Sample.root))
                       JUndefined JUndefined JUndefined JUndefined "10.0.0.2" None in
  get_auth_me (P := Reference.platform) req Sample.world
  = (failure 401 "No token provided", Sample.world)
  /\ get_dashboard_metrics (P := Reference.platform) req Sample.world
     = (failure 401 "Authentication required", Sample.world)
  /\ post_admin_users (P := Reference.platform) req Sample.world
     = (failure 401 "Authentication required", Sample.world)
  /\ get_admin_users (P := Reference.platform) req Sample.world
     = (failure 401 "Authentication required", Sample.world).
Proof.
  apply (missing_bearer_is_unauthenticated (P := Reference.platform)).
  reflexivity.
Defined.

(** X7. A verified token whose user is no longer in [auth_users] is answered
    401 "User not found" by [/api/auth/me] and [/api/dashboard/metrics], but
    403 "Admin access required" by the two admin endpoints. *)
Theorem vanished_user_status {P : Platform} (req : Request) (w : World) (decoded : Decoded.t) :
  bearer_decodes req w decoded ->
  accepts 1 w ->
  select_user_by_id (Decoded.userId decoded) (db w) = None ->
  fst (get_auth_me req w) = failure 401 "User not found"
  /\ fst (get_dashboard_metrics req w) = failure 401 "User not found"
  /\ fst (post_admin_users req w) = failure 403 "Admin access required"
  /\ fst (get_admin_users req w) = failure 403 "Admin access required".
Proof.
  intros (h & Hh & Hb & Hv) Hacc Hsel.
  unfold next_instant in Hv. split_accepts Hacc.
  unfold get_auth_me, get_dashboard_metrics, post_admin_users, get_admin_users, try_catch.
  rewrite Hh, (bearer_present _ Hb). run.
  rewrite Hv. simpl. rewrite Hacc0. simpl. rewrite Hsel. simpl.
  repeat split.
Qed.

Lemma vanished_user_status_witness :
  let ghost := AuthUser.mk "u9" "ghost@x.com" "Ghost" "" "admin" true "" "" None in
  let req := Sample.bearer (Sample.token_of ghost) in
  fst (get_auth_me (P := Reference.platform) req Sample.world)
  = failure 401 "User not found"
  /\ fst (get_dashboard_metrics (P := Reference.platform) req Sample.world)
     = failure 401 "User not found"
  /\ fst (post_admin_users (P := Reference.platform) req Sample.world)
     = failure 403 "Admin access required"
  /\ fst (get_admin_users (P := Reference.platform) req Sample.world)
     = failure 403 "Admin access required".
Proof.
  eapply (vanished_user_status (P := Reference.platform)).
  - eexists. repeat split; reflexivity.
  - reflexivity.
  - reflexivity.
Defined.

(** X8. When the store rejects the user lookup of a request whose token
    verifies, [/api/auth/me] answers 401 "Invalid token", the other three
    protected endpoints answer 500. *)
Theorem rejected_lookup_status {P : Platform} (req : Request) (w : World) (decoded : Decoded.t) :
  bearer_decodes req w decoded ->
  rejects_after 0 w ->
  fst (get_auth_me req w) = failure 401 "Invalid token"
  /\ fst (get_dashboard_metrics req w) = failure 500 "Failed to fetch metrics"
  /\ fst (post_admin_users req w) = failure 500 "Failed to create user"
  /\ fst (get_admin_users req w) = failure 500 "Failed to fetch users".
Proof.
  intros (h & Hh & Hb & Hv) [_ Hrej].
  unfold next_instant in Hv.
  assert (Hfirst : hd false (faults w) = true).
  { rewrite <- Hrej. now destruct (faults w). }
  unfold get_auth_me, get_dashboard_metrics, post_admin_users, get_admin_users, try_catch.
  rewrite Hh, (bearer_present _ Hb). run.
  rewrite Hv. simpl. rewrite Hfirst. simpl.
  repeat split.
Qed.

Lemma rejected_lookup_status_witness :
  let req := Sample.bearer (Sample.token_of Sample.root) in
  let w := mkWorld Sample.store [1000] [true] [] None in
  fst (get_auth_me (P := Reference.platform) req w) = failure 401 "Invalid token"
  /\ fst (get_dashboard_metrics (P := Reference.platform) req w)
     = failure 500 "Failed to fetch metrics"
  /\ fst (post_admin_users (P := Reference.platform) req w)
     = failure 500 "Failed to create user"
  /\ fst (get_admin_users (P := Reference.platform) req w)
     = failure 500 "Failed to fetch users".
Proof.
  eapply (rejected_lookup_status (P := Reference.platform)).
  - eexists. repeat split; reflexivity.
  - split; reflexivity.
Defined.

(** X9. Of a verified token the protected endpoints use the [userId] claim
    only: two requests with the same body whose tokens verify to payloads
    with the same [userId], whatever their [email], [role] and [timestamp]
    claims, have the same outcome on each of the four endpoints.  The role
    that gates and scopes is the stored one. *)
Theorem only_userId_claim_is_used {P : Platform}
    (req1 req2 : Request) (w : World) (d1 d2 : Decoded.t) :
  bearer_decodes req1 w d1 ->
  bearer_decodes req2 w d2 ->
  Decoded.userId d1 = Decoded.userId d2 ->
  same_body req1 req2 ->
  get_auth_me req1 w = get_auth_me req2 w
  /\ get_dashboard_metrics req1 w = get_dashboard_metrics req2 w
  /\ post_admin_users req1 w = post_admin_users req2 w
  /\ get_admin_users req1 w = get_admin_users req2 w.
Proof.
  intros (h1 & Hh1 & Hb1 & Hv1) (h2 & Hh2 & Hb2 & Hv2) Hid (He & Hdn & Hpw & Hrole).
  unfold next_instant in Hv1, Hv2. unfold Decoded.userId in Hid.
  unfold get_auth_me, get_dashboard_metrics, post_admin_users, get_admin_users, try_catch.
  rewrite Hh1, Hh2, (bearer_present _ Hb1), (bearer_present _ Hb2).
  rewrite He, Hdn, Hpw, Hrole. run.
  rewrite Hv1, Hv2. simpl. unfold Decoded.userId. rewrite Hid.
  repeat split.
Qed.

Lemma only_userId_claim_is_used_witness :
  let forged := Reference.sign (TokenData.mk "u1" "root@x.com" "admin" 7)
                               "default-secret" expiresIn_24h 500 in
  get_auth_me (P := Reference.platform) (Sample.bearer (Sample.token_of Sample.alice))
              Sample.world
  = get_auth_me (P := Reference.platform) (Sample.bearer forged) Sample.world
  /\ get_dashboard_metrics (P := Reference.platform)
       (Sample.bearer (Sample.token_of Sample.alice)) Sample.world
     = get_dashboard_metrics (P := Reference.platform) (Sample.bearer forged) Sample.world
  /\ post_admin_users (P := Reference.platform)
       (Sample.bearer (Sample.token_of Sample.alice)) Sample.world
     = post_admin_users (P := Reference.platform) (Sample.bearer forged) Sample.world
  /\ get_admin_users (P := Reference.platform)
       (Sample.bearer (Sample.token_of Sample.alice)) Sample.world
     = get_admin_users (P := Reference.platform) (Sample.bearer forged) Sample.world.
Proof.
  eapply (only_userId_claim_is_used (P := Reference.platform)).
  - eexists. repeat split; reflexivity.
  - eexists. repeat split; reflexivity.
  - reflexivity.
  - repeat split.
Defined.

(** X10. All that [POST /api/admin/users] ever does to the store is append
    one row to [auth_users], and only when it answers 200: the row is
    verified, has never logged in and holds a lower-case email; the rows
    that were there, the sessions and the business tables are as before.
    With any other status the store is untouched. *)
Theorem create_user_store_effect {P : Platform} (req : Request) (w : World) :
  (status (fst (post_admin_users req w)) = 200
   /\ exists row,
        db (snd (post_admin_users req w))
        = with_users (auth_users (db w) ++ [row]) (db w)
        /\ AuthUser.emailVerified row = true
        /\ AuthUser.lastLogin row = None
        /\ toLowerCase (AuthUser.email row) = AuthUser.email row)
  \/ (status (fst (post_admin_users req w)) <> 200
      /\ db (snd (post_admin_users req w)) = db w).
Proof.
  unfold post_admin_users, try_catch. run.
  repeat branch_goal;
    first [ right; split; [discriminate | reflexivity]
          | left; split; [reflexivity|];
            eexists; split; [reflexivity|];
            split; [reflexivity|];
            split; [reflexivity|];
            apply toLowerCase_idempotent ].
Qed.

(** X11. An admin request to [POST /api/admin/users] whose email, display
    name or password is falsy (absent, [null], [false], [0] or empty) is
    answered 400 and changes nothing. *)
Theorem create_user_requires_fields {P : Platform}
    (req : Request) (w : World) (u : AuthUser.t) :
  resolves req w u ->
  is_admin u = true ->
  accepts 1 w ->
  truthy (body_email req) = false
  \/ truthy (body_displayName req) = false
  \/ truthy (body_password req) = false ->
  fst (post_admin_users req w)
  = failure 400 "Email, display name and password are required"
  /\ db (snd (post_admin_users req w)) = db w.
Proof.
  intros (h & d & Hh & Hb & Hv & Hsel) Hadmin Hacc Hmissing.
  unfold next_instant in Hv. unfold is_admin in Hadmin. split_accepts Hacc.
  assert (Hguard : (negb (truthy (body_email req))
                    || negb (truthy (body_displayName req))
                    || negb (truthy (body_password req)))%bool = true).
  { destruct Hmissing as [-> | [-> | ->]]; simpl;
      rewrite ?orb_true_r; reflexivity. }
  unfold post_admin_users, try_catch.
  rewrite Hh, (bearer_present _ Hb). run.
  rewrite Hv. simpl. rewrite Hacc0. simpl. rewrite Hsel. simpl.
  rewrite Hadmin. simpl. rewrite Hguard.
  split; reflexivity.
Qed.

Lemma create_user_requires_fields_witness :
  let req := mkRequest (Some ("Bearer " ++ Sample.token_of Sample.root))
                       (JString "eve@x.com") (JString "") (JString "secret") JUndefined
                       "10.0.0.2" None in
  fst (post_admin_users (P := Reference.platform) req Sample.world)
  = failure 400 "Email, display name and password are required"
  /\ db (snd (post_admin_users (P := Reference.platform) req Sample.world))
     = db Sample.world.
Proof.
  apply (create_user_requires_fields (P := Reference.platform) _ _ Sample.root).
  - eexists. eexists. repeat split; reflexivity.
  - reflexivity.
  - reflexivity.
  - right. left. reflexivity.
Defined.

(** Ordering a list keeps its elements, each as often as it occurs. *)

Lemma insert_desc_Permutation {A : Type} (key : A -> string) (x : A) (l : list A) :
  Permutation (insert_desc key x l) (x :: l).
Proof.
  induction l as [|y l IH]; simpl.
  - apply Permutation_refl.
  - destruct (String.ltb (key x) (key y)).
    + apply perm_trans with (y :: x :: l).
      * now apply perm_skip.
      * apply perm_swap.
    + apply Permutation_refl.
Qed.

Lemma order_by_desc_Permutation {A : Type} (key : A -> string) (l : list A) :
  Permutation (order_by_desc key l) l.
Proof.
  induction l as [|x l IH]; simpl.
  - apply perm_nil.
  - apply perm_trans with (x :: order_by_desc key l).
    + apply insert_desc_Permutation.
    + now apply perm_skip.
Qed.

Lemma order_by_desc_StronglySorted {A : Type} (key : A -> string) (l : list A) :
  StronglySorted (desc key) (order_by_desc key l).
Proof.
  apply Sorted_StronglySorted; [apply desc_transitive | apply order_by_desc_Sorted].
Qed.

(** X12. For an admin, [GET /api/admin/users] lists every row of
    [auth_users] exactly once, projected on its public columns, in
    descending order of [createdAt]. *)
Theorem admin_lists_every_user {P : Platform} (req : Request) (w : World) (u : AuthUser.t) :
  resolves req w u ->
  is_admin u = true ->
  accepts 2 w ->
  exists users,
    fst (get_admin_users req w) = mkResponse 200 true None (UserList users)
    /\ Permutation users (map UserRow.of_user (auth_users (db w)))
    /\ StronglySorted (desc UserRow.createdAt) users.
Proof.
  intros (h & d & Hh & Hb & Hv & Hsel) Hadmin Hacc.
  unfold next_instant in Hv. unfold is_admin in Hadmin. split_accepts Hacc.
  exists (select_all_users (db w)). split.
  - unfold get_admin_users, try_catch.
    rewrite Hh, (bearer_present _ Hb). run.
    rewrite Hv. simpl. rewrite Hacc0. simpl. rewrite Hsel. simpl.
    rewrite Hadmin. simpl. rewrite Hacc1. reflexivity.
  - split.
    + apply order_by_desc_Permutation.
    + apply order_by_desc_StronglySorted.
Qed.

Lemma admin_lists_every_user_witness :
  exists users,
    fst (get_admin_users (P := Reference.platform)
           (Sample.bearer (Sample.token_of Sample.root)) Sample.world)
    = mkResponse 200 true None (UserList users)
    /\ Permutation users (map UserRow.of_user (auth_users (db Sample.world)))
    /\ StronglySorted (desc UserRow.createdAt) users.
Proof.
  apply (admin_lists_every_user (P := Reference.platform) _ _ Sample.root).
  - eexists. eexists. repeat split; reflexivity.
  - reflexivity.
  - reflexivity.
Defined.

(** X13. A request to [GET /api/admin/users] whose token resolves to a user
    who is not an admin is answered 403 and gets no user row. *)
Theorem non_admin_cannot_list_users {P : Platform} (req : Request) (w : World) (u : AuthUser.t) :
  resolves req w u ->
  accepts 1 w ->
  is_admin u = false ->
  fst (get_admin_users req w) = failure 403 "Admin access required".
Proof.
  intros (h & d & Hh & Hb & Hv & Hsel) Hacc Hrole.
  unfold next_instant in Hv. unfold is_admin in Hrole. split_accepts Hacc.
  unfold get_admin_users, try_catch.
  rewrite Hh, (bearer_present _ Hb). run.
  rewrite Hv. simpl. rewrite Hacc0. simpl. rewrite Hsel. simpl.
  now rewrite Hrole.
Qed.

Lemma non_admin_cannot_list_users_witness :
  fst (get_admin_users (P := Reference.platform)
         (Sample.bearer (Sample.token_of Sample.alice)) Sample.world)
  = failure 403 "Admin access required".
Proof.
  apply (non_admin_cannot_list_users (P := Reference.platform) _ _ Sample.alice).
  - eexists. eexists. repeat split; reflexivity.
  - reflexivity.
  - reflexivity.
Defined.

(** The sessions of another user are not touched by a deactivation. *)
Lemma sessions_of_other_after_deactivate (uid other : string) (s : Store) :
  uid <> other ->
  sessions_of uid (deactivate_sessions other s) = sessions_of uid s.
Proof.
  intros Hneq. unfold sessions_of, deactivate_sessions. simpl.
  induction (auth_sessions s) as [|r rs IH]; simpl; [reflexivity|].
  destruct (AuthSession.userId r =? other)%string eqn:Eo; simpl.
  - apply String.eqb_eq in Eo.
    assert (Eu : (AuthSession.userId r =? uid)%string = false).
    { apply String.eqb_neq. congruence. }
    destruct (AuthSession.isActive r); simpl; rewrite Eu; exact IH.
  - now rewrite IH.
Qed.

(** X14. A successful sign-in keeps every session row, deactivates those of
    the user and appends one row: active, owned by the user, carrying the
    client address and user agent of the request, and holding in
    [tokenHash] the very token returned to the client. *)
Theorem signin_records_session {P : Platform}
    (req : Request) (w : World) (user : Profile.t) (token : string) :
  fst (post_auth_signin req w) = signed_in user token ->
  exists row,
    auth_sessions (db (snd (post_auth_signin req w)))
    = (auth_sessions (deactivate_sessions (Profile.id user) (db w)) ++ [row])%list
    /\ List.length (auth_sessions (db (snd (post_auth_signin req w))))
       = S (List.length (auth_sessions (db w)))
    /\ AuthSession.userId row = Profile.id user
    /\ AuthSession.tokenHash row = token
    /\ AuthSession.isActive row = true
    /\ AuthSession.ipAddress row = ip req
    /\ AuthSession.userAgent row = user_agent req.
Proof.
  intros H.
  assert (Hok : status (fst (post_auth_signin req w)) = 200) by now rewrite H.
  destruct (signin_success_inv _ _ Hok) as (e & pw & u & He & Hp & Hacc & Hsel & Hcmp).
  destruct (signin_succeeds _ _ _ _ _ He Hp Hacc Hsel Hcmp) as (Hresp & Hdb & _).
  rewrite Hresp in H. injection H as <- <-.
  rewrite Hdb. unfold store_after_signin. simpl.
  eexists. split; [reflexivity|].
  split; [|repeat split].
  rewrite length_app, length_map. simpl. apply Nat.add_1_r.
Qed.

Lemma signin_records_session_witness :
  let req := Sample.credentials "alice@x.com" "wonderland" in
  let token := issued_token (P := Reference.platform) Sample.alice Sample.world in
  exists row,
    auth_sessions (db (snd (post_auth_signin (P := Reference.platform) req Sample.world)))
    = (auth_sessions (deactivate_sessions "u1" (db Sample.world)) ++ [row])%list
    /\ List.length
         (auth_sessions (db (snd (post_auth_signin (P := Reference.platform) req
                                                   Sample.world))))
       = S (List.length (auth_sessions (db Sample.world)))
    /\ AuthSession.userId row = "u1"
    /\ AuthSession.tokenHash row = token
    /\ AuthSession.isActive row = true
    /\ AuthSession.ipAddress row = "10.0.0.2"
    /\ AuthSession.userAgent row = Some "curl".
Proof.
  apply (signin_records_session (P := Reference.platform)
           (Sample.credentials "alice@x.com" "wonderland") Sample.world
           (Profile.of_user Sample.alice)).
  reflexivity.
Defined.

(** X15. A successful sign-in leaves the sessions of every other user as
    they were, active or not. *)
Theorem signin_keeps_other_users_sessions {P : Platform}
    (req : Request) (w : World) (user : Profile.t) (token : string) (uid : string) :
  fst (post_auth_signin req w) = signed_in user token ->
  uid <> Profile.id user ->
  sessions_of uid (db (snd (post_auth_signin req w))) = sessions_of uid (db w).
Proof.
  intros H Hneq.
  assert (Hok : status (fst (post_auth_signin req w)) = 200) by now rewrite H.
  destruct (signin_success_inv _ _ Hok) as (e & pw & u & He & Hp & Hacc & Hsel & Hcmp).
  destruct (signin_succeeds _ _ _ _ _ He Hp Hacc Hsel Hcmp) as (Hresp & Hdb & _).
  rewrite Hresp in H. injection H as <- _. simpl in Hneq.
  rewrite Hdb. unfold store_after_signin.
  change (sessions_of uid (update_lastLogin ?a ?i ?s)) with (sessions_of uid s).
  rewrite <- (sessions_of_other_after_deactivate uid (AuthUser.id u) (db w) Hneq).
  unfold sessions_of at 1, insert_session. simpl.
  rewrite filter_app. simpl.
  assert (Eu : (AuthUser.id u =? uid)%string = false).
  { apply String.eqb_neq. congruence. }
  rewrite Eu. apply app_nil_r.
Qed.

Lemma signin_keeps_other_users_sessions_witness :
  sessions_of "u0"
    (db (snd (post_auth_signin (P := Reference.platform)
                (Sample.credentials "alice@x.com" "wonderland") Sample.world)))
  = sessions_of "u0" (db Sample.world).
Proof.
  apply (signin_keeps_other_users_sessions (P := Reference.platform)
           (Sample.credentials "alice@x.com" "wonderland") Sample.world
           (Profile.of_user Sample.alice)
           (issued_token (P := Reference.platform) Sample.alice Sample.world)).
  - reflexivity.
  - discriminate.
Defined.

Lemma forget_after_login (at_ uid : string) (us : list AuthUser.t) :
  map forget_lastLogin
      (map (fun u => if (AuthUser.id u =? uid)%string
                     then AuthUser.set_lastLogin at_ u else u) us)
  = map forget_lastLogin us.
Proof.
  rewrite map_map. apply map_ext. intros u.
  now destruct (AuthUser.id u =? uid)%string.
Qed.

(** What sign-in does to [auth_users] and the business tables, on every
    path. *)
Lemma signin_frame {P : Platform} (req : Request) (w : World) :
  map forget_lastLogin (auth_users (db (snd (post_auth_signin req w))))
  = map forget_lastLogin (auth_users (db w))
  /\ leads (db (snd (post_auth_signin req w))) = leads (db w)
  /\ accounts (db (snd (post_auth_signin req w))) = accounts (db w)
  /\ active_deals (db (snd (post_auth_signin req w))) = active_deals (db w)
  /\ contacts (db (snd (post_auth_signin req w))) = contacts (db w).
Proof.
  unfold post_auth_signin, try_catch. run.
  repeat branch_goal;
    (split; [first [reflexivity | apply forget_after_login] | repeat split]).
Qed.

(** X16. Whatever the request, the world and the answer, sign-in changes no
    column of [auth_users] other than [lastLogin] (not even [updatedAt]),
    adds and removes no user, and leaves the four business tables as they
    were. *)
Theorem signin_touches_only_lastLogin {P : Platform} (req : Request) (w : World) :
  map forget_lastLogin (auth_users (db (snd (post_auth_signin req w))))
  = map forget_lastLogin (auth_users (db w))
  /\ leads (db (snd (post_auth_signin req w))) = leads (db w)
  /\ accounts (db (snd (post_auth_signin req w))) = accounts (db w)
  /\ active_deals (db (snd (post_auth_signin req w))) = active_deals (db w)
  /\ contacts (db (snd (post_auth_signin req w))) = contacts (db w).
Proof.
  apply signin_frame.
Qed.

(** X17. Sign-in is not atomic on its last statement either: with valid
    credentials, when the store rejects the update of [lastLogin], the
    response is the 500 without token, yet the new session row is stored
    and active, holding a token the client never received. *)
Theorem signin_not_atomic_on_login_update_failure {P : Platform}
    (req : Request) (w : World) (e pw : string) (u : AuthUser.t) :
  present (body_email req) e ->
  present (body_password req) pw ->
  select_user_by_email (toLowerCase e) (db w) = Some u ->
  bcrypt_compare pw (AuthUser.passwordHash u) = true ->
  rejects_after 3 w ->
  fst (post_auth_signin req w) = failure 500 "Internal server error"
  /\ exists row,
       active_sessions_of (AuthUser.id u) (db (snd (post_auth_signin req w))) = [row]
       /\ AuthSession.tokenHash row = issued_token u w.
Proof.
  intros He Hp Hsel Hcmp [Hacc Hrej].
  fold (accepts 3 w) in Hacc. split_accepts Hacc.
  assert (Hfourth : hd false (tl (tl (tl (faults w)))) = true).
  { rewrite <- Hrej. now destruct (faults w) as [|b0 [|b1 [|b2 [|b3 fs]]]]. }
  unfold post_auth_signin, try_catch.
  rewrite (truthy_present _ _ He), (truthy_present _ _ Hp).
  destruct He as [-> _], Hp as [-> _]. run.
  rewrite Hacc0. simpl. rewrite Hsel. simpl. rewrite Hcmp. simpl.
  rewrite Hacc1. simpl. rewrite Hacc2. simpl. rewrite Hfourth. simpl.
  split; [reflexivity|].
  rewrite active_after_insert, no_active_after_deactivate. simpl.
  eexists. split; [reflexivity|]. simpl.
  unfold issued_token.
  now destruct (readings (clock w)) as (-> & -> & _).
Qed.

Lemma signin_not_atomic_on_login_update_failure_witness :
  let req := Sample.credentials "alice@x.com" "wonderland" in
  let w := mkWorld Sample.store [1000; 2000; 3000; 4000] [false; false; false; true]
                   ["0.abcdefghijklmn"] None in
  fst (post_auth_signin (P := Reference.platform) req w)
  = failure 500 "Internal server error"
  /\ exists row,
       active_sessions_of "u1" (db (snd (post_auth_signin (P := Reference.platform) req w)))
       = [row]
       /\ AuthSession.tokenHash row = issued_token (P := Reference.platform) Sample.alice w.
Proof.
  apply (signin_not_atomic_on_login_update_failure (P := Reference.platform)
           (Sample.credentials "alice@x.com" "wonderland")
           (mkWorld Sample.store [1000; 2000; 3000; 4000] [false; false; false; true]
                    ["0.abcdefghijklmn"] None)
           "alice@x.com" "wonderland" Sample.alice).
  - split; reflexivity.
  - split; reflexivity.
  - reflexivity.
  - reflexivity.
  - split; reflexivity.
Defined.

(** ** Creating a user, then signing in *)

Lemma find_after_none {A : Type} (p : A -> bool) (l : list A) (x : A) :
  find p l = None -> p x = true -> find p (l ++ [x]) = Some x.
Proof.
  intros Hnone Hx. induction l as [|a l IH]; simpl in *.
  - now rewrite Hx.
  - destruct (p a); [discriminate Hnone | now apply IH].
Qed.

Lemma create_user_failure_leaves_store {P : Platform} (req : Request) (w : World) :
  status (fst (post_admin_users req w)) <> 200 ->
  db (snd (post_admin_users req w)) = db w.
Proof.
  unfold post_admin_users, try_catch. run.
  repeat branch_goal; intros H; first [reflexivity | now elim H].
Qed.

(** X18. A user created through [POST /api/admin/users] can sign in: once
    the creation has answered 200, a sign-in on the resulting store with the
    password of the creation request and any email that lower-cases to the
    created email answers 200 with the profile the creation stored.  bcrypt
    is taken to compare a hash it computed equal to its data. *)
Theorem created_user_can_sign_in {P : Platform}
    (req1 req2 : Request) (w w2 : World) (created : NewUser.t) (e2 : string) :
  bcrypt_faithful P ->
  status (fst (post_admin_users req1 w)) = 200 ->
  payload (fst (post_admin_users req1 w)) = CreatedUser created ->
  db w2 = db (snd (post_admin_users req1 w)) ->
  present (body_email req2) e2 ->
  toLowerCase e2 = NewUser.email created ->
  body_password req2 = body_password req1 ->
  accepts 4 w2 ->
  exists token,
    fst (post_auth_signin req2 w2) = signed_in (stored_profile created) token.
Proof.
  intros Hbcrypt Hok Hcreated Hdb2 He2 Hlow Hpw Hacc.
  destruct (create_user_success_inv _ _ Hok)
    as (u1 & e1 & pw1 & Hres1 & Hadmin1 & He1 & Hdn1 & Hp1 & Hacc1 & Hnew1).
  destruct (create_user_stores_row _ _ _ _ _ Hres1 Hadmin1 He1 Hdn1 Hp1 Hacc1 Hnew1)
    as (row & salt & Hemail & Hhash & (c & Hresp & _ & _ & Hprofile) & Hdb1).
  rewrite Hresp in Hcreated. injection Hcreated as ->.
  assert (Hstored : NewUser.email created = toLowerCase e1).
  { rewrite <- Hemail. change (AuthUser.email row) with (Profile.email (Profile.of_user row)).
    now rewrite Hprofile. }
  rewrite Hstored in Hlow.
  assert (Hp2 : present (body_password req2) pw1) by now rewrite Hpw.
  assert (Hsel : select_user_by_email (toLowerCase e2) (db w2) = Some row).
  { unfold select_user_by_email. rewrite Hdb2, Hdb1. simpl.
    apply find_after_none.
    - rewrite Hlow. exact Hnew1.
    - rewrite Hemail, Hlow. apply String.eqb_refl. }
  assert (Hcmp : bcrypt_compare pw1 (AuthUser.passwordHash row) = true).
  { rewrite Hhash. apply Hbcrypt. }
  destruct (signin_succeeds _ _ _ _ _ He2 Hp2 Hacc Hsel Hcmp) as (Hin & _).
  eexists. rewrite <- Hprofile. exact Hin.
Qed.

Lemma created_user_can_sign_in_witness :
  let first := Sample.new_user (Sample.token_of Sample.root) "Ann@X.com" "Ann" "pw1" in
  let w2 := snd (post_admin_users (P := Reference.platform) first Sample.world) in
  exists token,
    fst (post_auth_signin (P := Reference.platform) (Sample.credentials "ANN@x.com" "pw1") w2)
    = signed_in (Profile.mk "user_2000_zyxwvutsr" "ann@x.com" "user" "Ann") token.
Proof.
  apply (created_user_can_sign_in (P := Reference.platform)
           (Sample.new_user (Sample.token_of Sample.root) "Ann@X.com" "Ann" "pw1")
           (Sample.credentials "ANN@x.com" "pw1")
           Sample.world
           (snd (post_admin_users (P := Reference.platform)
                   (Sample.new_user (Sample.token_of Sample.root) "Ann@X.com" "Ann" "pw1")
                   Sample.world))
           (NewUser.mk "user_2000_zyxwvutsr" "ann@x.com" (JString "Ann") (JString "user"))
           "ANN@x.com").
  - exact reference_bcrypt_faithful.
  - reflexivity.
  - reflexivity.
  - reflexivity.
  - split; reflexivity.
  - reflexivity.
  - reflexivity.
  - reflexivity.
Defined.

(** ** The emails of [auth_users] *)

Lemma emails_canonical_by_emails {P : Platform} (s s' : Store) :
  map AuthUser.email (auth_users s') = map AuthUser.email (auth_users s) ->
  emails_canonical s -> emails_canonical s'.
Proof.
  unfold emails_canonical. intros Heq [Hnd Hlow].
  rewrite Heq. split; [exact Hnd|].
  apply (Forall_map AuthUser.email (fun e => toLowerCase e = e)).
  rewrite Heq.
  now apply (Forall_map AuthUser.email (fun e => toLowerCase e = e)).
Qed.

Lemma emails_of_forgotten (us : list AuthUser.t) :
  map AuthUser.email (map forget_lastLogin us) = map AuthUser.email us.
Proof.
  rewrite map_map. now apply map_ext.
Qed.

(** X19. The two writing endpoints keep the emails of [auth_users] pairwise
    distinct and in lower case: if they are so before
    [POST /api/admin/users] or [POST /api/auth/signin], they are so after,
    whatever the request and the answer. *)
Theorem writes_keep_emails_canonical {P : Platform} (req req' : Request) (w : World) :
  emails_canonical (db w) ->
  emails_canonical (db (snd (post_admin_users req w)))
  /\ emails_canonical (db (snd (post_auth_signin req' w))).
Proof.
  intros Hcan. split.
  - destruct (Z.eq_dec (status (fst (post_admin_users req w))) 200) as [Hok|Hfail].
    + destruct (create_user_success_inv _ _ Hok)
        as (u & e & pw & Hres & Hadmin & He & Hdn & Hp & Hacc & Hnew).
      destruct (create_user_stores_row _ _ _ _ _ Hres Hadmin He Hdn Hp Hacc Hnew)
        as (row & salt & Hemail & _ & _ & Hdb).
      rewrite Hdb. destruct Hcan as [Hnd Hlow].
      unfold emails_canonical. simpl. split.
      * rewrite map_app. simpl.
        apply (Permutation_NoDup (Permutation_cons_append _ _)).
        constructor; [|exact Hnd].
        intros Hin. apply in_map_iff in Hin. destruct Hin as (x & Hx & Hinx).
        pose proof (find_none _ _ Hnew x Hinx) as Hneq. simpl in Hneq.
        apply String.eqb_neq in Hneq. congruence.
      * apply Forall_app. split; [exact Hlow|].
        constructor; [|constructor].
        rewrite Hemail. apply toLowerCase_idempotent.
    + now rewrite (create_user_failure_leaves_store _ _ Hfail).
  - apply (emails_canonical_by_emails (db w)); [|exact Hcan].
    destruct (signin_frame req' w) as (Husers & _).
    rewrite <- (emails_of_forgotten (auth_users (db w))), <- Husers.
    symmetry. apply emails_of_forgotten.
Qed.

Lemma writes_keep_emails_canonical_witness :
  emails_canonical (P := Reference.platform)
    (db (snd (post_admin_users (P := Reference.platform)
                (Sample.new_user (Sample.token_of Sample.root) "Ann@X.com" "Ann" "pw1")
                Sample.world)))
  /\ emails_canonical (P := Reference.platform)
       (db (snd (post_auth_signin (P := Reference.platform)
                   (Sample.credentials "alice@x.com" "wonderland") Sample.world))).
Proof.
  apply (writes_keep_emails_canonical (P := Reference.platform)).
  split.
  - simpl. repeat constructor; simpl; intuition discriminate.
  - simpl. repeat constructor.
Defined.

(** ** The activity feed *)

Lemma select_where_unbound {A : Type} (createdBy : A -> nullable) (rows : list A) :
  select_where WhereCreatedBy None createdBy rows = [].
Proof.
  simpl. induction rows as [|r rows IH]; simpl; [reflexivity|].
  now rewrite sql_eq_unbound.
Qed.

(** X20. For an admin the feed of [GET /api/dashboard/metrics] is the first
    10 entries of all leads, accounts and deals of the store put in
    descending order of [createdAt]: it has 10 entries, or as many as there
    are rows in the three tables when they are fewer. *)
Theorem admin_feed_is_ten_most_recent {P : Platform}
    (req : Request) (w : World) (u : AuthUser.t) :
  resolves req w u ->
  is_admin u = true ->
  accepts 6 w ->
  exists m sorted,
    fst (get_dashboard_metrics req w)
    = mkResponse 200 true None (Dashboard m (firstn 10 sorted) (AuthUser.role u))
    /\ Permutation sorted
         (map lead_activity (leads (db w))
          ++ map account_activity (accounts (db w))
          ++ map deal_activity (active_deals (db w)))%list
    /\ StronglySorted (desc Activity.createdAt) sorted
    /\ List.length (firstn 10 sorted)
       = Nat.min 10 (List.length (leads (db w)) + List.length (accounts (db w))
                     + List.length (active_deals (db w))).
Proof.
  intros Hres Hadmin Hacc.
  destruct (metrics_succeeds _ _ _ Hres Hacc) as (wc & params & Hscope & Hresp & _).
  rewrite Hadmin in Hscope. simpl in Hscope. injection Hscope as -> ->.
  eexists. exists (order_by_desc Activity.createdAt (union_all_activities NoWhere [] (db w))).
  split; [exact Hresp|].
  split; [apply order_by_desc_Permutation|].
  split; [apply order_by_desc_StronglySorted|].
  rewrite length_firstn.
  rewrite (Permutation_length (order_by_desc_Permutation _ _)).
  unfold union_all_activities. simpl.
  rewrite !length_app, !length_map. now rewrite Nat.add_assoc.
Qed.

Lemma admin_feed_is_ten_most_recent_witness :
  let s := db Sample.world in
  exists m sorted,
    fst (get_dashboard_metrics (P := Reference.platform)
           (Sample.bearer (Sample.token_of Sample.root)) Sample.world)
    = mkResponse 200 true None (Dashboard m (firstn 10 sorted) "admin")
    /\ Permutation sorted
         (map lead_activity (leads s) ++ map account_activity (accounts s)
          ++ map deal_activity (active_deals s))%list
    /\ StronglySorted (desc Activity.createdAt) sorted
    /\ List.length (firstn 10 sorted)
       = Nat.min 10 (List.length (leads s) + List.length (accounts s)
                     + List.length (active_deals s)).
Proof.
  apply (admin_feed_is_ten_most_recent (P := Reference.platform) _ _ Sample.root).
  - eexists. eexists. repeat split; reflexivity.
  - reflexivity.
  - reflexivity.
Defined.

(** X21. For a user who is not an admin the feed is built of their leads
    only: it is the first 10 entries of the leads they created, in
    descending order of [createdAt].  The accounts and deals they created
    are counted in the metrics but never listed, the feed statement having
    three placeholders for the one parameter bound. *)
Theorem user_feed_is_ten_most_recent_leads {P : Platform}
    (req : Request) (w : World) (u : AuthUser.t) :
  resolves req w u ->
  is_admin u = false ->
  accepts 6 w ->
  exists m sorted,
    fst (get_dashboard_metrics req w)
    = mkResponse 200 true None (Dashboard m (firstn 10 sorted) (AuthUser.role u))
    /\ Permutation sorted
         (map lead_activity
              (filter (fun r => created_by (AuthUser.id u) (Lead.createdBy r))
                      (leads (db w))))
    /\ StronglySorted (desc Activity.createdAt) sorted
    /\ Metrics.accounts m
       = owned_count Account.createdBy (AuthUser.id u) (accounts (db w))
    /\ Metrics.deals m
       = owned_count Deal.createdBy (AuthUser.id u) (active_deals (db w)).
Proof.
  intros Hres Hadmin Hacc.
  destruct (metrics_succeeds _ _ _ Hres Hacc) as (wc & params & Hscope & Hresp & _).
  rewrite Hadmin in Hscope. simpl in Hscope. injection Hscope as -> ->.
  eexists.
  exists (order_by_desc Activity.createdAt
            (union_all_activities WhereCreatedBy [AuthUser.id u] (db w))).
  split; [exact Hresp|].
  split.
  - eapply perm_trans; [apply order_by_desc_Permutation|].
    unfold union_all_activities.
    change (bound [AuthUser.id u] 1) with (@None string).
    change (bound [AuthUser.id u] 2) with (@None string).
    rewrite !select_where_unbound. simpl. rewrite app_nil_r.
    apply Permutation_refl.
  - split; [apply order_by_desc_StronglySorted|].
    split; reflexivity.
Qed.

Lemma user_feed_is_ten_most_recent_leads_witness :
  let s := db Sample.world in
  exists m sorted,
    fst (get_dashboard_metrics (P := Reference.platform)
           (Sample.bearer (Sample.token_of Sample.alice)) Sample.world)
    = mkResponse 200 true None (Dashboard m (firstn 10 sorted) "user")
    /\ Permutation sorted
         (map lead_activity
              (filter (fun r => created_by "u1" (Lead.createdBy r)) (leads s)))
    /\ StronglySorted (desc Activity.createdAt) sorted
    /\ Metrics.accounts m = owned_count Account.createdBy "u1" (accounts s)
    /\ Metrics.deals m = owned_count Deal.createdBy "u1" (active_deals s).
Proof.
  apply (user_feed_is_ten_most_recent_leads (P := Reference.platform) _ _ Sample.alice).
  - eexists. eexists. repeat split; reflexivity.
  - reflexivity.
  - reflexivity.
Defined.

(** ** Expiry *)

(** X22. From 24 hours after the second of signing on, the token of a
    successful sign-in is refused: [GET /api/auth/me] answers 401 "Invalid
    token", [GET /api/dashboard/metrics] 500.  jsonwebtoken is taken to
    reject what it signed once it has expired. *)
Theorem issued_token_expires {P : Platform}
    (req : Request) (w : World) (user : Profile.t) (token : string) :
  jwt_expiring P ->
  fst (post_auth_signin req w) = signed_in user token ->
  forall req' w',
    authorization req' = Some ("Bearer " ++ token) ->
    JWT_SECRET w' = JWT_SECRET w ->
    nth 1 (clock w) 0 / 1000 + expiresIn_24h <= next_instant w' / 1000 ->
    fst (get_auth_me req' w') = failure 401 "Invalid token"
    /\ fst (get_dashboard_metrics req' w') = failure 500 "Failed to fetch metrics".
Proof.
  intros Hjwt H req' w' Hauth Hkey Hlate.
  assert (Hok : status (fst (post_auth_signin req w)) = 200) by now rewrite H.
  destruct (signin_success_inv _ _ Hok) as (e & pw & u & He & Hp & Hacc & Hsel & Hcmp).
  destruct (signin_succeeds _ _ _ _ _ He Hp Hacc Hsel Hcmp) as (Hresp & _).
  rewrite Hresp in H. injection H as _ <-.
  assert (Hrej : carries_rejected_token req' w').
  { eexists. split; [exact Hauth|]. split; [apply bearer_startsWith|].
    rewrite Hkey. apply Hjwt. exact Hlate. }
  split.
  - now apply me_rejects_token.
  - now apply metrics_rejects_token.
Qed.

Lemma issued_token_expires_witness :
  let token := issued_token (P := Reference.platform) Sample.alice Sample.world in
  let later := mkWorld Sample.store [90000000] [] [] None in
  fst (get_auth_me (P := Reference.platform) (Sample.bearer token) later)
  = failure 401 "Invalid token"
  /\ fst (get_dashboard_metrics (P := Reference.platform) (Sample.bearer token) later)
     = failure 500 "Failed to fetch metrics".
Proof.
  apply (issued_token_expires (P := Reference.platform)
           (Sample.credentials "alice@x.com" "wonderland") Sample.world
           (Profile.of_user Sample.alice)
           (issued_token (P := Reference.platform) Sample.alice Sample.world)).
  - exact reference_jwt_expiring.
  - reflexivity.
  - reflexivity.
  - reflexivity.
  - vm_compute. discriminate.
Defined.
